(** * Gas Town daemon: lifecycle and health subsystem

    A shallow embedding of the supervisor's health classifier and stuck-agent
    remediation ([internal/daemon/agent_health.go]), its respawn bookkeeping
    and policy table (the daemon's [State], [AgentState] and
    [RespawnConfig]), the session-name grammar
    ([internal/session/identity.go], [internal/session/names.go]) and the
    mail-driven lifecycle request processor ([ProcessLifecycleRequests] and
    what it calls), together with the properties stated about them. *)

From Stdlib Require Import ZArith Lia Bool List Ascii String.
From stdpp Require Import base option gmap strings list fin_maps.

Local Open Scope string_scope.
Local Open Scope Z_scope.

(** ** Go's [time] package, as far as the daemon uses it *)

Module GoTime.

(** [time.Duration] is an [int64] count of nanoseconds. *)
Definition Duration := Z.

Definition Nanosecond : Duration := 1.
Definition Second : Duration := 1000000000 * Nanosecond.
Definition Minute : Duration := 60 * Second.
Definition Hour : Duration := 60 * Minute.

Definition minDuration : Duration := - 2 ^ 63.
Definition maxDuration : Duration := 2 ^ 63 - 1.

(** A [time.Time] is an instant, counted here in nanoseconds from Go's zero
    time (January 1, year 1, 00:00:00 UTC), so that [IsZero] is the test
    against [0]. *)
Definition Time := Z.

Definition zeroTime : Time := 0.

Definition IsZero (t : Time) : bool := t =? 0.

(** [t.Sub(u)]: the difference, saturated to the range of a [Duration]. *)
Definition Sub (t u : Time) : Duration :=
  let d := t - u in
  if d <? minDuration then minDuration
  else if maxDuration <? d then maxDuration
  else d.

(** [time.Since(t)] is [time.Now().Sub(t)]. *)
Definition Since (now t : Time) : Duration := Sub now t.

(** [t.Add(d)]. *)
Definition Add (t : Time) (d : Duration) : Time := t + d.

(** [d.Round(m)]: to the nearest multiple of [m], halfway values away from
    zero; [d] itself when [m <= 0]; saturating. *)
Definition lessThanHalf (x y : Duration) : bool := x + x <? y.

Definition Round (d m : Duration) : Duration :=
  if m <=? 0 then d
  else
    let r := Z.rem d m in
    if d <? 0 then
      let r := - r in
      if lessThanHalf r m then d + r
      else
        let d1 := d - m + r in
        if minDuration <=? d1 then d1 else minDuration
    else
      if lessThanHalf r m then d - r
      else
        let d1 := d + m - r in
        if d1 <=? maxDuration then d1 else maxDuration.

End GoTime.

Export GoTime.

(** A Go call returning [(T, error)]; the error is kept as its text. *)
Inductive Result (A : Type) : Type :=
| Ok (a : A)
| Err (msg : string).
Arguments Ok {A} a.
Arguments Err {A} msg.

(** ** Respawn policy table *)

Record RespawnConfig := mkRespawnConfig {
  Delay : Duration;
  StuckThreshold : Duration;
  Trigger : string
}.

Definition DefaultRespawnConfigs : gmap string RespawnConfig :=
  <["deacon" := mkRespawnConfig (5 * Minute) (15 * Minute) "always"]>
  (<["witness" := mkRespawnConfig (5 * Minute) (10 * Minute) "always"]>
  (<["refinery" := mkRespawnConfig 0 (5 * Minute) "mq-not-empty"]> ∅)).

Definition GetRespawnConfig (role : string) : RespawnConfig :=
  match DefaultRespawnConfigs !! role with
  | Some cfg => cfg
  | None => mkRespawnConfig (5 * Minute) (15 * Minute) "always"
  end.

(** ** Persisted supervisor state *)

(** The three [*time.Time] fields are [option]s: [None] is the nil pointer. *)
Record AgentState := mkAgentState {
  Session : string;
  LastPatrolCompleted : option Time;
  RespawnScheduledAt : option Time;
  LastExitedAt : option Time;
  ExitReason : string
}.

(** The zero value [&AgentState{}]. *)
Definition emptyAgentState : AgentState :=
  mkAgentState "" None None None "".

(** [Agents] maps an agent identifier to its [*AgentState]. A nil map and a
    key bound to a nil pointer both read as "no entry" in [GetAgentState], so
    both are the absent key here. *)
Record State := mkState {
  Running : bool;
  PID : Z;
  StartedAt : Time;
  LastHeartbeat : Time;
  HeartbeatCount : Z;
  Agents : gmap string AgentState
}.

Definition setAgents (s : State) (m : gmap string AgentState) : State :=
  mkState (Running s) (PID s) (StartedAt s) (LastHeartbeat s)
          (HeartbeatCount s) m.

(** [GetAgentState] creates the entry when it is missing and returns the
    entry together with the state that now holds it. *)
Definition GetAgentState (s : State) (agentID : string) : AgentState * State :=
  match Agents s !! agentID with
  | Some a => (a, s)
  | None => (emptyAgentState, setAgents s (<[agentID := emptyAgentState]> (Agents s)))
  end.

(** Writing through the pointer [GetAgentState] handed out. *)
Definition storeAgent (s : State) (agentID : string) (a : AgentState) : State :=
  setAgents s (<[agentID := a]> (Agents s)).

(** [ScheduleRespawn]; [now] is the reading of [time.Now()]. *)
Definition ScheduleRespawn (now : Time) (s : State)
    (agentID session role exitReason : string) : State :=
  let '(agent, s) := GetAgentState s agentID in
  let agent := mkAgentState session (LastPatrolCompleted agent)
                 (RespawnScheduledAt agent) (LastExitedAt agent) exitReason in
  let agent := mkAgentState (Session agent) (LastPatrolCompleted agent)
                 (RespawnScheduledAt agent) (Some now) (ExitReason agent) in
  let cfg := GetRespawnConfig role in
  let respawnAt := Add now (Delay cfg) in
  let agent := mkAgentState (Session agent) (LastPatrolCompleted agent)
                 (Some respawnAt) (LastExitedAt agent) (ExitReason agent) in
  storeAgent s agentID agent.

(** [ClearRespawn]. *)
Definition ClearRespawn (s : State) (agentID session : string) : State :=
  let '(agent, s) := GetAgentState s agentID in
  storeAgent s agentID
    (mkAgentState session (LastPatrolCompleted agent) None None "").

(** [UpdatePatrolCompleted]. *)
Definition UpdatePatrolCompleted (now : Time) (s : State) (agentID : string) : State :=
  let '(agent, s) := GetAgentState s agentID in
  storeAgent s agentID
    (mkAgentState (Session agent) (Some now) (RespawnScheduledAt agent)
       (LastExitedAt agent) (ExitReason agent)).

(** ** Go's [strings] and [path/filepath], as far as the daemon uses them *)

Module GoStrings.

(** [strings.HasPrefix]. *)
Definition HasPrefix (s p : string) : bool := String.prefix p s.

(** [s[n:]]. *)
Definition from (n : nat) (s : string) : string :=
  String.substring n (String.length s - n) s.

(** [strings.TrimPrefix]. *)
Definition TrimPrefix (s p : string) : string :=
  if HasPrefix s p then from (String.length p) s else s.

(** [strings.HasSuffix] and [strings.TrimSuffix]. *)
Definition HasSuffix (s p : string) : bool :=
  (String.length p <=? String.length s)%nat &&
  String.eqb (from (String.length s - String.length p) s) p.

Definition TrimSuffix (s p : string) : string :=
  if HasSuffix s p
  then String.substring 0 (String.length s - String.length p) s
  else s.

(** [strings.Join(parts, sep)]. *)
Fixpoint Join (parts : list string) (sep : string) : string :=
  match parts with
  | [] => ""
  | [p] => p
  | p :: rest => p +:+ sep +:+ Join rest sep
  end.

(** [strings.Split(s, sep)] for a separator of one byte: the pieces between
    the occurrences of [c], so one more piece than there are occurrences. *)
Fixpoint SplitByte (s : string) (c : ascii) : list string :=
  match s with
  | EmptyString => [""]
  | String a s' =>
      if Ascii.eqb a c then "" :: SplitByte s' c
      else
        match SplitByte s' c with
        | [] => [String a ""]
        | p :: ps => String a p :: ps
        end
  end.

(** Whether the byte [c] occurs in [s]: [strings.Contains] for a
    separator of one byte. *)
Fixpoint hasByte (s : string) (c : ascii) : bool :=
  match s with
  | EmptyString => false
  | String a s' => Ascii.eqb a c || hasByte s' c
  end.

(** [strings.ToLower] and [strings.TrimSpace] on ASCII text; bytes above
    127 are left as they are. *)
Definition lowerByte (c : ascii) : ascii :=
  let n := nat_of_ascii c in
  if (65 <=? n)%nat && (n <=? 90)%nat then ascii_of_nat (n + 32) else c.

Fixpoint ToLower (s : string) : string :=
  match s with
  | EmptyString => EmptyString
  | String c s' => String (lowerByte c) (ToLower s')
  end.

Definition isSpace (c : ascii) : bool :=
  let n := nat_of_ascii c in
  ((9 <=? n)%nat && (n <=? 13)%nat) || (n =? 32)%nat.

Fixpoint trimLeft (s : string) : string :=
  match s with
  | EmptyString => EmptyString
  | String c s' => if isSpace c then trimLeft s' else s
  end.

Fixpoint trimRight (s : string) : string :=
  match s with
  | EmptyString => EmptyString
  | String c s' =>
      let r := trimRight s' in
      if isSpace c && String.eqb r "" then EmptyString else String c r
  end.

Definition TrimSpace (s : string) : string := trimRight (trimLeft s).

(** [strings.Cut]: the text before and after the first occurrence of
    [sep]. [strings.Contains(s, sep)] is whether there is one, and
    [strings.SplitN(s, sep, 2)] has two parts exactly then. *)
Definition Cut (s sep : string) : option (string * string) :=
  match String.index 0 sep s with
  | Some i => Some (String.substring 0 i s, from (i + String.length sep) s)
  | None => None
  end.

Definition Contains (s sep : string) : bool :=
  match Cut s sep with Some _ => true | None => false end.

(** [filepath.Join]: empty elements are ignored and the rest joined by the
    separator; all elements empty gives the empty string. The lexical
    clean-up of the joined path by [filepath.Clean] is left out: paths are
    only compared with [""] and used as keys of the file store, and
    [Clean] never turns a non-empty path into the empty one. *)
Definition filepath_Join (elems : list string) : string :=
  Join (List.filter (fun s => negb (String.eqb s "")) elems) "/".

End GoStrings.

Export GoStrings.

(** ** Session names ([internal/session]) *)

Module session.

(** [Role]: the six declared constants. *)
Inductive Role :=
| RoleMayor
| RoleDeacon
| RoleWitness
| RoleRefinery
| RoleCrew
| RolePolecat.

Definition Role_string (r : Role) : string :=
  match r with
  | RoleMayor => "mayor"
  | RoleDeacon => "deacon"
  | RoleWitness => "witness"
  | RoleRefinery => "refinery"
  | RoleCrew => "crew"
  | RolePolecat => "polecat"
  end.

Record AgentIdentity := mkAgentIdentity {
  Role_ : Role;
  Town : string;
  Rig : string;
  Name : string
}.

(** [names.go] *)
Definition Prefix : string := "gt-".

Definition MayorSessionName (townName : string) : string :=
  Prefix +:+ townName +:+ "-mayor".

Definition DeaconSessionName (townName : string) : string :=
  Prefix +:+ townName +:+ "-deacon".

Definition WitnessSessionName (rig : string) : string :=
  Prefix +:+ rig +:+ "-witness".

Definition RefinerySessionName (rig : string) : string :=
  Prefix +:+ rig +:+ "-refinery".

Definition CrewSessionName (rig name : string) : string :=
  Prefix +:+ rig +:+ "-crew-" +:+ name.

Definition PolecatSessionName (rig name : string) : string :=
  Prefix +:+ rig +:+ "-" +:+ name.

(** [AgentIdentity.SessionName]; the [default] branch of the switch is for
    role strings outside the six constants. *)
Definition SessionName (a : AgentIdentity) : string :=
  match Role_ a with
  | RoleMayor => MayorSessionName (Town a)
  | RoleDeacon => DeaconSessionName (Town a)
  | RoleWitness => WitnessSessionName (Rig a)
  | RoleRefinery => RefinerySessionName (Rig a)
  | RoleCrew => CrewSessionName (Rig a) (Name a)
  | RolePolecat => PolecatSessionName (Rig a) (Name a)
  end.

(** The three ways [ParseSessionName] rejects a name. *)
Inductive ParseError :=
| MissingPrefix
| EmptyAfterPrefix
| ExpectedTwoSegments.

Inductive ParseResult :=
| Parsed (a : AgentIdentity)
| Invalid (e : ParseError).

(** The crew loop: the first index [i] with [parts[i] == "crew"],
    [i > 0] and [i < len(parts)-1]. [i] is the index of the head of
    [parts] and [n] the length of the whole slice. *)
Fixpoint findCrew (parts : list string) (i n : nat) : option nat :=
  match parts with
  | [] => None
  | p :: rest =>
      if String.eqb p "crew" && (0 <? i)%nat && (i <? n - 1)%nat
      then Some i
      else findCrew rest (S i) n
  end.

(** [ParseSessionName]. *)
Definition ParseSessionName (session : string) : ParseResult :=
  if negb (HasPrefix session Prefix) then Invalid MissingPrefix
  else
    let suffix := TrimPrefix session Prefix in
    if String.eqb suffix "" then Invalid EmptyAfterPrefix
    else
      let parts := SplitByte suffix "-" in
      let n := List.length parts in
      if (n <? 2)%nat then Invalid ExpectedTwoSegments
      else
        let lastPart := List.last parts "" in
        let front := Join (List.firstn (n - 1) parts) "-" in
        if String.eqb lastPart "mayor" then
          Parsed (mkAgentIdentity RoleMayor front "" "")
        else if String.eqb lastPart "deacon" then
          Parsed (mkAgentIdentity RoleDeacon front "" "")
        else if String.eqb lastPart "witness" then
          Parsed (mkAgentIdentity RoleWitness "" front "")
        else if String.eqb lastPart "refinery" then
          Parsed (mkAgentIdentity RoleRefinery "" front "")
        else
          match findCrew parts 0 n with
          | Some i =>
              Parsed (mkAgentIdentity RoleCrew ""
                        (Join (List.firstn i parts) "-")
                        (Join (List.skipn (i + 1) parts) "-"))
          | None =>
              if (n <? 2)%nat then Invalid ExpectedTwoSegments
              else Parsed (mkAgentIdentity RolePolecat "" front lastPart)
          end.

(** [AgentIdentity.Address]. *)
Definition Address (a : AgentIdentity) : string :=
  match Role_ a with
  | RoleMayor => "mayor"
  | RoleDeacon => "deacon"
  | RoleWitness => Rig a +:+ "/witness"
  | RoleRefinery => Rig a +:+ "/refinery"
  | RoleCrew => Rig a +:+ "/crew/" +:+ Name a
  | RolePolecat => Rig a +:+ "/polecats/" +:+ Name a
  end.

End session.

(** ** The daemon and its surroundings *)

(** What the daemon does to the outside world: the calls that can change it
    (terminal session manager, mail command, file system, event feed), in the
    order they are made, whatever their outcome. Queries
    ([HasSession], [bd show], the inbox listing, file reads, the clock) and
    log lines are not recorded. *)
Inductive Event :=
| EvKillSession (session : string)
| EvKillSessionWithProcesses (session : string)
| EvNudgeSession (session msg : string)
| EvEnsureSessionFresh (session workDir : string)
| EvSetEnvironment (session key value : string)
| EvConfigureSession (session rig role : string)
| EvSendKeys (session cmd : string)
| EvWaitForCommand (session : string)
| EvAcceptBypassPermissionsWarning (session : string)
| EvGitFetch (workDir : string)
| EvGitPullRebase (workDir : string)
| EvBdSync (workDir : string)
| EvSleepShutdownNotifyDelay
| EvLogFeedAgentStuck (role rig session heartbeat_age : string)
| EvMailDelete (id : string)
| EvWriteFile (path : string).

(** A value of a decoded JSON object ([map[string]interface{}]). *)
Inductive JSONValue :=
| JBool (b : bool)
| JNumber (n : Z)
| JString (s : string)
| JNull
| JCompound.

(** A file of the per-agent state store: either its bytes decode to a JSON
    object or they do not. *)
Inductive FileData :=
| FileJSON (obj : gmap string JSONValue)
| FileNotJSON.

(** A message of [gt mail inbox --json]. *)
Record BeadsMessage := mkBeadsMessage {
  ID : string;
  From : string;
  To : string;
  Subject : string;
  Body : string;
  Timestamp : string;
  Read : bool;
  Priority : string;
  Type_ : string
}.

(** The state outside the daemon that it reads and changes: the deacon's
    inbox, the agents' state files (a missing key is a missing file), and the
    history of calls made so far. *)
Record World := mkWorld {
  inbox : list BeadsMessage;
  files : gmap string FileData;
  trace : list Event
}.

Definition emit (ev : Event) (w : World) : World :=
  mkWorld (inbox w) (files w) (trace w ++ [ev]).

(** [beads.RoleConfig], the fields the daemon reads. *)
Record RoleConfig := mkRoleConfig {
  SessionPattern : string;
  WorkDirPattern : string;
  NeedsPreSync : bool;
  StartCommand : string;
  EnvVars : list (string * string)
}.

(** [AgentBeadInfo]. *)
Record AgentBeadInfo := mkAgentBeadInfo {
  bead_ID : string;
  bead_Type : string;
  bead_State : string;
  bead_HookBead : string;
  bead_RoleBead : string;
  bead_RoleType : string;
  bead_Rig : string;
  bead_LastUpdate : string
}.

(** The daemon's configuration and the answers of everything it calls but
    does not own. An answer may depend on the history of calls so far, so
    that the same question can be answered differently later on; this holds
    for the clock ([time.Now]) too. The fields
    from [Duration_String] on are pure functions of Go's library or of
    packages of the repository outside this subsystem. *)
Record Env := mkEnv {
  TownRoot : string;
  clock : list Event -> Time;
  tmux_HasSession : list Event -> string -> Result bool;
  tmux_KillSession : list Event -> string -> option string;
  tmux_KillSessionWithProcesses : list Event -> string -> option string;
  tmux_NudgeSession : list Event -> string -> string -> option string;
  tmux_EnsureSessionFresh : list Event -> string -> string -> option string;
  tmux_SendKeys : list Event -> string -> string -> option string;
  mail_inbox_ok : list Event -> bool;
  mail_delete : list Event -> string -> option string;
  fs_read_error : list Event -> string -> option string;
  fs_write_error : list Event -> string -> option string;
  bd_agent_bead_info : list Event -> string -> Result AgentBeadInfo;
  bd_show_labels : list Event -> string -> option (list string);
  beads_GetRoleConfig : list Event -> string -> option RoleConfig;
  workspace_GetTownName : list Event -> string -> Result string;
  Duration_String : Duration -> string;
  time_Parse_RFC3339 : string -> option Time;
  json_Unmarshal_LifecycleBody : string -> option string;
  beads_ExpandRolePattern : string -> string -> string -> string -> string -> string;
  config_GetRuntimeCommand : string -> string;
  config_BuildPolecatStartupCommand : string -> string -> string -> string -> string
}.

(** ** Health evaluator ([agent_health.go]) *)

Inductive AgentStatus :=
| StatusHealthy
| StatusNeedsRespawn
| StatusWaitingRespawn
| StatusStuck.

Definition AgentStatus_string (st : AgentStatus) : string :=
  match st with
  | StatusHealthy => "healthy"
  | StatusNeedsRespawn => "needs_respawn"
  | StatusWaitingRespawn => "waiting_respawn"
  | StatusStuck => "stuck"
  end.

Record AgentHealthConfig := mkAgentHealthConfig {
  Role : string;
  RigName : string;
  SessionName : string;
  cfgStuckThreshold : Duration;
  RespawnDelay : Duration;
  LastDeath : Time
}.

Definition DefaultStuckThreshold : Duration := 15 * Minute.
Definition DefaultRespawnDelay : Duration := 30 * Second.
Definition CriticalStuckThreshold : Duration := 30 * Minute.

Record AgentHealthResult := mkAgentHealthResult {
  Status : AgentStatus;
  SessionAlive : bool;
  HeartbeatAge : Duration;
  resLastHeartbeat : Time;
  Message : string
}.

(** [LifecycleAction]: the three declared constants. *)
Inductive LifecycleAction :=
| ActionCycle
| ActionRestart
| ActionShutdown.

Definition LifecycleAction_string (a : LifecycleAction) : string :=
  match a with
  | ActionCycle => "cycle"
  | ActionRestart => "restart"
  | ActionShutdown => "shutdown"
  end.

Record LifecycleRequest := mkLifecycleRequest {
  reqFrom : string;
  reqAction : LifecycleAction;
  reqTimestamp : Time
}.

Definition MaxLifecycleMessageAge : Duration := 6 * Hour.

(** [ParsedIdentity]. *)
Record ParsedIdentity := mkParsedIdentity {
  pRoleType : string;
  pRigName : string;
  pAgentName : string
}.

(** [os.ReadFile]: the file is missing, the read fails otherwise, or there
    is content. *)
Inductive ReadResult :=
| ReadNotExist
| ReadFailed (err : string)
| ReadData (data : FileData).

(** The errors of [verifyAgentRequestingState]. *)
Inductive VerifyError :=
| ErrStateFileNotFound (stateFile : string)
| ErrReadingAgentState (err : string)
| ErrParsingAgentState
| ErrStateMissingField (key : string)
| ErrStateNotTrue (key : string) (val : JSONValue).

(** The errors of [clearAgentRequestingState]. *)
Inductive ClearError :=
| ErrNoStateFile
| ErrReadingStateFile (err : string)
| ErrParsingState
| ErrWritingStateFile (err : string).

(** The errors of [restartSession]. *)
Inductive RestartError :=
| ErrParsingIdentity
| ErrNoWorkDir
| ErrCreatingSession (err : string)
| ErrSendingStartupCommand (err : string).

(** The errors of [executeLifecycleAction]. *)
Inductive LifecycleError :=
| ErrUnknownIdentity (from : string)
| ErrStateVerification (e : VerifyError)
| ErrCheckingSession (err : string)
| ErrKillingSession (err : string)
| ErrRestartingSession (e : RestartError).

Section Daemon.

Variable d : Env.

(** [getRigPrefix]. *)
Definition getRigPrefix (rigName : string) : string :=
  if String.eqb rigName "gastown" then "gt"
  else if String.eqb rigName "beads" then "bd"
  else "gt".

(** [buildPatrolAgentBeadID]. *)
Definition buildPatrolAgentBeadID (role rigName : string) : string :=
  if String.eqb role "deacon" then "hq-deacon"
  else if String.eqb role "witness" then
    if negb (String.eqb rigName "")
    then getRigPrefix rigName +:+ "-" +:+ rigName +:+ "-witness"
    else ""
  else if String.eqb role "refinery" then
    if negb (String.eqb rigName "")
    then getRigPrefix rigName +:+ "-" +:+ rigName +:+ "-refinery"
    else ""
  else "".

(** The loop of [parseLastActivityFromBead] over the labels of the bead:
    the first label longer than 14 bytes that starts with
    ["last_activity:"] decides. *)
Fixpoint scanLastActivity (labels : list string) : Time :=
  match labels with
  | [] => zeroTime
  | label :: rest =>
      if (14 <? String.length label)%nat
         && String.eqb (String.substring 0 14 label) "last_activity:"
      then
        match time_Parse_RFC3339 d (from 14 label) with
        | Some t => t
        | None => zeroTime
        end
      else scanLastActivity rest
  end.

(** [parseLastActivityFromBead]; [bd_show_labels] is [None] when the
    command fails, its output does not decode, or it lists no issue. *)
Definition parseLastActivityFromBead (tr : list Event) (agentBeadID : string) : Time :=
  match bd_show_labels d tr agentBeadID with
  | None => zeroTime
  | Some labels => scanLastActivity labels
  end.

(** [getLastPatrolCompleted]. *)
Definition getLastPatrolCompleted (tr : list Event) (role rigName : string) : Time :=
  let agentBeadID := buildPatrolAgentBeadID role rigName in
  if String.eqb agentBeadID "" then zeroTime
  else
    match bd_agent_bead_info d tr agentBeadID with
    | Err _ => zeroTime
    | Ok _ => parseLastActivityFromBead tr agentBeadID
    end.

(** [respawnDelayElapsed]. *)
Definition respawnDelayElapsed (tr : list Event) (config : AgentHealthConfig) : bool :=
  if IsZero (LastDeath config) then true
  else RespawnDelay config <=? Since (clock d tr) (LastDeath config).

(** [checkAgentHealth]. The classification only asks questions, so it is a
    function of the history [tr] at which it is made. *)
Definition checkAgentHealth (tr : list Event) (config : AgentHealthConfig)
    : AgentHealthResult :=
  match tmux_HasSession d tr (SessionName config) with
  | Err err =>
      mkAgentHealthResult StatusHealthy false 0 zeroTime
        ("error checking session: " +:+ err)
  | Ok sessionAlive =>
      let lastHeartbeat := getLastPatrolCompleted tr (Role config) (RigName config) in
      let resLast := if negb (IsZero lastHeartbeat) then lastHeartbeat else zeroTime in
      let age := if negb (IsZero lastHeartbeat)
                 then Since (clock d tr) lastHeartbeat else 0 in
      let result st msg := mkAgentHealthResult st sessionAlive age resLast msg in
      if negb sessionAlive && respawnDelayElapsed tr config then
        result StatusNeedsRespawn "session dead, respawn delay elapsed"
      else if negb sessionAlive then
        result StatusWaitingRespawn
          ("session dead, waiting for respawn delay (" +:+
           Duration_String d (RespawnDelay config - Since (clock d tr) (LastDeath config))
           +:+ " remaining)")
      else if sessionAlive && (cfgStuckThreshold config <? age) then
        if IsZero lastHeartbeat then
          result StatusHealthy "no heartbeat yet (first startup)"
        else
          result StatusStuck
            ("session alive but heartbeat stale (" +:+
             Duration_String d (Round age Minute) +:+ " old, threshold " +:+
             Duration_String d (cfgStuckThreshold config) +:+ ")")
      else
        if 0 <? age then
          result StatusHealthy
            ("healthy, last heartbeat " +:+ Duration_String d (Round age Minute) +:+ " ago")
        else result StatusHealthy "healthy"
  end.

(** ** Stuck-agent remediation ([agent_health.go]) *)

(** [handleStuckAgent]: the feed record, then the kill or the nudge. A
    failure of either call is only logged. *)
Definition handleStuckAgent (config : AgentHealthConfig) (result : AgentHealthResult)
    (w : World) : World :=
  let w := emit (EvLogFeedAgentStuck (Role config) (RigName config) (SessionName config)
                   (Duration_String d (HeartbeatAge result))) w in
  if CriticalStuckThreshold <? HeartbeatAge result then
    emit (EvKillSessionWithProcesses (SessionName config)) w
  else
    let nudgeMsg :=
      "HEALTH_CHECK: heartbeat stale (" +:+
      Duration_String d (Round (HeartbeatAge result) Minute) +:+
      " old), please respond to confirm responsiveness" in
    emit (EvNudgeSession (SessionName config) nudgeMsg) w.

(** The [switch result.Status] shared by [checkDeaconAgentHealth],
    [checkWitnessAgentHealth] and [checkRefineryAgentHealth]: only a stuck
    agent is acted upon. *)
Definition actOnHealth (config : AgentHealthConfig) (w : World) : World :=
  let result := checkAgentHealth (trace w) config in
  match Status result with
  | StatusStuck => handleStuckAgent config result w
  | StatusNeedsRespawn => w
  | StatusWaitingRespawn => w
  | StatusHealthy => w
  end.

(** ** Lifecycle request processor *)

(** [parseIdentity]: the one place where identity strings are taken
    apart; [None] is the "unknown identity format" error. *)
Definition parseIdentity (identity : string) : option ParsedIdentity :=
  if String.eqb identity "mayor" then Some (mkParsedIdentity "mayor" "" "")
  else if String.eqb identity "deacon" then Some (mkParsedIdentity "deacon" "" "")
  else if HasSuffix identity "-witness" then
    Some (mkParsedIdentity "witness" (TrimSuffix identity "-witness") "")
  else if HasSuffix identity "-refinery" then
    Some (mkParsedIdentity "refinery" (TrimSuffix identity "-refinery") "")
  else
    match Cut identity "-crew-" with
    | Some (rig, name) => Some (mkParsedIdentity "crew" rig name)
    | None =>
        match Cut identity "-polecat-" with
        | Some (rig, name) => Some (mkParsedIdentity "polecat" rig name)
        | None =>
            match Cut identity "/polecats/" with
            | Some (rig, name) =>
                (* [strings.Split] gives two parts when there is no
                   further occurrence *)
                if Contains name "/polecats/" then None
                else Some (mkParsedIdentity "polecat" rig name)
            | None => None
            end
        end
    end.

(** [getRoleConfigForIdentity]: the parsed identity and the role bead's
    configuration, [None] for the configuration when the lookup fails or
    the bead has none. *)
Definition getRoleConfigForIdentity (tr : list Event) (identity : string)
    : option (option RoleConfig * ParsedIdentity) :=
  match parseIdentity identity with
  | None => None
  | Some parsed => Some (beads_GetRoleConfig d tr (pRoleType parsed), parsed)
  end.

Definition expand (pattern : string) (parsed : ParsedIdentity) : string :=
  beads_ExpandRolePattern d pattern (TownRoot d)
    (pRigName parsed) (pAgentName parsed) (pRoleType parsed).

(** [identityToSession]. *)
Definition identityToSession (tr : list Event) (identity : string) : string :=
  match getRoleConfigForIdentity tr identity with
  | None => ""
  | Some (config, parsed) =>
      let fallback :=
        let role := pRoleType parsed in
        if String.eqb role "mayor" then
          match workspace_GetTownName d tr (TownRoot d) with
          | Ok townName => session.MayorSessionName townName
          | Err _ => ""
          end
        else if String.eqb role "deacon" then
          match workspace_GetTownName d tr (TownRoot d) with
          | Ok townName => session.DeaconSessionName townName
          | Err _ => ""
          end
        else if String.eqb role "witness" || String.eqb role "refinery" then
          "gt-" +:+ pRigName parsed +:+ "-" +:+ role
        else if String.eqb role "crew" then
          "gt-" +:+ pRigName parsed +:+ "-crew-" +:+ pAgentName parsed
        else if String.eqb role "polecat" then
          "gt-" +:+ pRigName parsed +:+ "-" +:+ pAgentName parsed
        else "" in
      match config with
      | Some c =>
          if negb (String.eqb (SessionPattern c) "")
          then expand (SessionPattern c) parsed
          else fallback
      | None => fallback
      end
  end.

(** [getWorkDir]. *)
Definition getWorkDir (config : option RoleConfig) (parsed : ParsedIdentity) : string :=
  let fallback :=
    let role := pRoleType parsed in
    if String.eqb role "mayor" then TownRoot d
    else if String.eqb role "deacon" then TownRoot d
    else if String.eqb role "witness" then
      filepath_Join [TownRoot d; pRigName parsed]
    else if String.eqb role "refinery" then
      filepath_Join [TownRoot d; pRigName parsed; "refinery"; "rig"]
    else if String.eqb role "crew" then
      filepath_Join [TownRoot d; pRigName parsed; "crew"; pAgentName parsed]
    else if String.eqb role "polecat" then
      filepath_Join [TownRoot d; pRigName parsed; "polecats"; pAgentName parsed]
    else "" in
  match config with
  | Some c =>
      if negb (String.eqb (WorkDirPattern c) "")
      then expand (WorkDirPattern c) parsed
      else fallback
  | None => fallback
  end.

(** [getNeedsPreSync]. *)
Definition getNeedsPreSync (config : option RoleConfig) (parsed : ParsedIdentity) : bool :=
  match config with
  | Some c => NeedsPreSync c
  | None =>
      let role := pRoleType parsed in
      String.eqb role "refinery" || String.eqb role "crew" || String.eqb role "polecat"
  end.

(** [getStartCommand]. *)
Definition getStartCommand (roleConfig : option RoleConfig) (parsed : ParsedIdentity) : string :=
  let fallback :=
    let defaultCmd := "exec " +:+ config_GetRuntimeCommand d "" in
    if String.eqb (pRoleType parsed) "polecat"
    then config_BuildPolecatStartupCommand d (pRigName parsed) (pAgentName parsed) "" ""
    else defaultCmd in
  match roleConfig with
  | Some c =>
      if negb (String.eqb (StartCommand c) "")
      then expand (StartCommand c) parsed
      else fallback
  | None => fallback
  end.

(** [identityToBDActor]. *)
Definition identityToBDActor (identity : string) : string :=
  if Contains identity "/polecats/" || Contains identity "/crew/"
     || Contains identity "/witness" || Contains identity "/refinery"
  then identity
  else
    match parseIdentity identity with
    | None => identity
    | Some parsed =>
        let role := pRoleType parsed in
        if String.eqb role "mayor" || String.eqb role "deacon" then role
        else if String.eqb role "witness" then pRigName parsed +:+ "/witness"
        else if String.eqb role "refinery" then pRigName parsed +:+ "/refinery"
        else if String.eqb role "crew" then
          pRigName parsed +:+ "/crew/" +:+ pAgentName parsed
        else if String.eqb role "polecat" then
          pRigName parsed +:+ "/polecats/" +:+ pAgentName parsed
        else identity
    end.

(** [syncWorkspace]: three commands, each failure only logged. *)
Definition syncWorkspace (workDir : string) (w : World) : World :=
  emit (EvBdSync workDir) (emit (EvGitPullRebase workDir) (emit (EvGitFetch workDir) w)).

(** [setSessionEnvironment]. *)
Definition setSessionEnvironment (sessionName identity : string)
    (config : option RoleConfig) (parsed : ParsedIdentity) (w : World) : World :=
  let w := emit (EvSetEnvironment sessionName "GT_ROLE" identity) w in
  let w := emit (EvSetEnvironment sessionName "BD_ACTOR" (identityToBDActor identity)) w in
  match config with
  | Some c =>
      fold_left (fun w kv => emit (EvSetEnvironment sessionName (fst kv)
                                     (expand (snd kv) parsed)) w)
                (EnvVars c) w
  | None => w
  end.

(** [applySessionTheme]. *)
Definition applySessionTheme (sessionName : string) (parsed : ParsedIdentity)
    (w : World) : World :=
  if String.eqb (pRoleType parsed) "mayor" then
    emit (EvConfigureSession sessionName "" "Mayor") w
  else if negb (String.eqb (pRigName parsed) "") then
    emit (EvConfigureSession sessionName (pRigName parsed) (pRoleType parsed)) w
  else w.

(** [restartSession]. *)
Definition restartSession (sessionName identity : string) (w : World)
    : option RestartError * World :=
  match getRoleConfigForIdentity (trace w) identity with
  | None => (Some ErrParsingIdentity, w)
  | Some (config, parsed) =>
      let workDir := getWorkDir config parsed in
      if String.eqb workDir "" then (Some ErrNoWorkDir, w)
      else
        let w := if getNeedsPreSync config parsed then syncWorkspace workDir w else w in
        let failed := tmux_EnsureSessionFresh d (trace w) sessionName workDir in
        let w := emit (EvEnsureSessionFresh sessionName workDir) w in
        match failed with
        | Some err => (Some (ErrCreatingSession err), w)
        | None =>
            let w := setSessionEnvironment sessionName identity config parsed w in
            let w := applySessionTheme sessionName parsed w in
            let startCmd := getStartCommand config parsed in
            let failed := tmux_SendKeys d (trace w) sessionName startCmd in
            let w := emit (EvSendKeys sessionName startCmd) w in
            match failed with
            | Some err => (Some (ErrSendingStartupCommand err), w)
            | None =>
                let w := emit (EvWaitForCommand sessionName) w in
                let w := emit (EvAcceptBypassPermissionsWarning sessionName) w in
                (None, w)
            end
        end
  end.

(** [closeMessage]: [gt mail delete id]. A successful command removes the
    message from the inbox, a failing one leaves the inbox as it is. *)
Definition closeMessage (id : string) (w : World) : option string * World :=
  match mail_delete d (trace w) id with
  | Some err => (Some err, emit (EvMailDelete id) w)
  | None =>
      (None,
       emit (EvMailDelete id)
         (mkWorld (List.filter (fun m => negb (String.eqb (ID m) id)) (inbox w))
                  (files w) (trace w)))
  end.

(** [identityToStateFile]. *)
Definition identityToStateFile (identity : string) : string :=
  match parseIdentity identity with
  | None => ""
  | Some parsed =>
      let workDir := getWorkDir None parsed in
      if String.eqb workDir "" then ""
      else
        let role := pRoleType parsed in
        if String.eqb role "mayor" then
          filepath_Join [TownRoot d; "mayor"; "state.json"]
        else if String.eqb role "deacon" then
          filepath_Join [TownRoot d; "deacon"; "state.json"]
        else if String.eqb role "witness" then
          filepath_Join [TownRoot d; pRigName parsed; "witness"; "state.json"]
        else if String.eqb role "refinery" then
          filepath_Join [TownRoot d; pRigName parsed; "refinery"; "state.json"]
        else filepath_Join [workDir; "state.json"]
  end.

(** [os.ReadFile] on the state store. *)
Definition readFile (w : World) (path : string) : ReadResult :=
  match fs_read_error d (trace w) path with
  | Some err => ReadFailed err
  | None =>
      match files w !! path with
      | None => ReadNotExist
      | Some data => ReadData data
      end
  end.

Definition requestingKey (action : LifecycleAction) : string :=
  "requesting_" +:+ LifecycleAction_string action.

(** [verifyAgentRequestingState]; [None] is the nil error. *)
Definition verifyAgentRequestingState (identity : string) (action : LifecycleAction)
    (w : World) : option VerifyError :=
  let stateFile := identityToStateFile identity in
  if String.eqb stateFile "" then None
  else
    match readFile w stateFile with
    | ReadNotExist => Some (ErrStateFileNotFound stateFile)
    | ReadFailed err => Some (ErrReadingAgentState err)
    | ReadData FileNotJSON => Some ErrParsingAgentState
    | ReadData (FileJSON state) =>
        let key := requestingKey action in
        match state !! key with
        | None => Some (ErrStateMissingField key)
        | Some (JBool true) => None
        | Some val => Some (ErrStateNotTrue key val)
        end
    end.

(** [clearAgentRequestingState]. *)
Definition clearAgentRequestingState (identity : string) (action : LifecycleAction)
    (w : World) : option ClearError * World :=
  let stateFile := identityToStateFile identity in
  if String.eqb stateFile "" then (Some ErrNoStateFile, w)
  else
    match readFile w stateFile with
    | ReadNotExist => (Some (ErrReadingStateFile "file does not exist"), w)
    | ReadFailed err => (Some (ErrReadingStateFile err), w)
    | ReadData FileNotJSON => (Some ErrParsingState, w)
    | ReadData (FileJSON state) =>
        let state := delete "requesting_time" (delete (requestingKey action) state) in
        let failed := fs_write_error d (trace w) stateFile in
        let w' := emit (EvWriteFile stateFile) w in
        match failed with
        | Some err => (Some (ErrWritingStateFile err), w')
        | None =>
            (None, mkWorld (inbox w') (<[stateFile := FileJSON state]> (files w')) (trace w'))
        end
    end.

(** [parseLifecycleRequest]; [None] is the nil request. *)
Definition parseLifecycleRequest (tr : list Event) (msg : BeadsMessage)
    : option LifecycleRequest :=
  let subject := ToLower (Subject msg) in
  if negb (HasPrefix subject "lifecycle:") then None
  else
    let body : option string :=
      match json_Unmarshal_LifecycleBody d (Body msg) with
      | Some action => Some action
      | None =>
          let bodyLower := ToLower (TrimSpace (Body msg)) in
          if String.eqb bodyLower "restart" || String.eqb bodyLower "action: restart"
          then Some "restart"
          else if String.eqb bodyLower "shutdown"
                  || String.eqb bodyLower "action: shutdown"
                  || String.eqb bodyLower "stop"
          then Some "shutdown"
          else if String.eqb bodyLower "cycle" || String.eqb bodyLower "action: cycle"
          then Some "cycle"
          else None
      end in
    match body with
    | None => None
    | Some bodyAction =>
        let a := ToLower bodyAction in
        let action : option LifecycleAction :=
          if String.eqb a "restart" then Some ActionRestart
          else if String.eqb a "shutdown" || String.eqb a "stop" then Some ActionShutdown
          else if String.eqb a "cycle" then Some ActionCycle
          else None in
        match action with
        | None => None
        | Some action => Some (mkLifecycleRequest (From msg) action (clock d tr))
        end
    end.

(** [executeLifecycleAction]; [None] is the nil error. The query of the
    agent bead's self-reported state only feeds a log line. The [default]
    branch of the action switch is for action strings outside the three
    constants. *)
Definition executeLifecycleAction (request : LifecycleRequest) (w : World)
    : option LifecycleError * World :=
  let sessionName := identityToSession (trace w) (reqFrom request) in
  if String.eqb sessionName "" then (Some (ErrUnknownIdentity (reqFrom request)), w)
  else
    match verifyAgentRequestingState (reqFrom request) (reqAction request) w with
    | Some e => (Some (ErrStateVerification e), w)
    | None =>
        match tmux_HasSession d (trace w) sessionName with
        | Err err => (Some (ErrCheckingSession err), w)
        | Ok running =>
            match reqAction request with
            | ActionShutdown =>
                if running then
                  let failed := tmux_KillSession d (trace w) sessionName in
                  let w := emit (EvKillSession sessionName) w in
                  match failed with
                  | Some err => (Some (ErrKillingSession err), w)
                  | None => (None, w)
                  end
                else (None, w)
            | ActionCycle | ActionRestart =>
                let killed : option string * World :=
                  if running then
                    let failed := tmux_KillSession d (trace w) sessionName in
                    let w := emit (EvKillSession sessionName) w in
                    match failed with
                    | Some err => (Some err, w)
                    | None => (None, emit EvSleepShutdownNotifyDelay w)
                    end
                  else (None, w) in
                match killed with
                | (Some err, w) => (Some (ErrKillingSession err), w)
                | (None, w) =>
                    match restartSession sessionName (reqFrom request) w with
                    | (Some e, w) => (Some (ErrRestartingSession e), w)
                    | (None, w) =>
                        (* a failure to clear the flag is only logged *)
                        (None, snd (clearAgentRequestingState
                                      (reqFrom request) (reqAction request) w))
                    end
                end
            end
        end
    end.

(** Whether the staleness gate of [ProcessLifecycleRequests] discards the
    message: its timestamp parses and is more than
    [MaxLifecycleMessageAge] old. *)
Definition isStale (tr : list Event) (msg : BeadsMessage) : bool :=
  match time_Parse_RFC3339 d (Timestamp msg) with
  | Some msgTime => MaxLifecycleMessageAge <? Since (clock d tr) msgTime
  | None => false
  end.

(** The body of the loop of [ProcessLifecycleRequests]. *)
Definition processMessage (w : World) (msg : BeadsMessage) : World :=
  if Read msg then w
  else
    match parseLifecycleRequest (trace w) msg with
    | None => w
    | Some request =>
        if isStale (trace w) msg then snd (closeMessage (ID msg) w)
        else
          let w := snd (closeMessage (ID msg) w) in
          snd (executeLifecycleAction request w)
    end.


End Daemon.

(** ** Notions for stating the lifecycle properties *)


(** The requester's state file, as stored, is a JSON object whose
    requesting_<action> entry is the boolean true. *)
Definition showsRequesting (d : Env) (w : World) (identity : string)
    (action : LifecycleAction) : bool :=
  match files w !! identityToStateFile d identity with
  | Some (FileJSON state) =>
      match state !! requestingKey action with
      | Some (JBool true) => true
      | _ => false
      end
  | _ => false
  end.




(** ** Identities whose session name can be read back *)

Module session_canon.
Import session.

(** The role words [ParseSessionName] looks for in the last segment. *)
Definition isRoleWord (s : string) : bool :=
  String.eqb s "mayor" || String.eqb s "deacon"
  || String.eqb s "witness" || String.eqb s "refinery".

(** No segment of the rig after its first is the crew marker. *)
Definition rigReadable (rig : string) : bool :=
  forallb (fun p => negb (String.eqb p "crew")) (List.tl (SplitByte rig "-")).

(** An identity in the form [ParseSessionName] produces it: only the
    fields of its role are filled; for a crew member or a polecat the rig
    is readable and the last segment of the name is not a role word; a
    polecat's name has no hyphen. *)
Definition readable (a : AgentIdentity) : bool :=
  match Role_ a with
  | RoleMayor | RoleDeacon =>
      String.eqb (Rig a) "" && String.eqb (Name a) ""
  | RoleWitness | RoleRefinery =>
      String.eqb (Town a) "" && String.eqb (Name a) ""
  | RoleCrew =>
      String.eqb (Town a) "" && rigReadable (Rig a)
      && negb (isRoleWord (List.last (SplitByte (Name a) "-") ""))
  | RolePolecat =>
      String.eqb (Town a) "" && rigReadable (Rig a)
      && negb (hasByte (Name a) "-") && negb (isRoleWord (Name a))
  end.

End session_canon.

(** What [handleStuckAgent] adds to the history. *)
Definition remediation (d : Env) (config : AgentHealthConfig)
    (result : AgentHealthResult) (w : World) : list Event :=
  List.skipn (List.length (trace w)) (trace (handleStuckAgent d config result w)).

(** The entry an operation on the state starts from: the stored one, or
    the zero value [GetAgentState] creates. *)
Definition agentEntry (s : State) (agentID : string) : AgentState :=
  default emptyAgentState (Agents s !! agentID).

(** ** Patrol configuration and the patrol health pass *)

(** [PatrolConfig], [PatrolsConfig] and [DaemonPatrolConfig]; a nil pointer
    is [None]. *)
Record PatrolConfig := mkPatrolConfig {
  Enabled : bool;
  Interval : string;
  Agent : string
}.

Record PatrolsConfig := mkPatrolsConfig {
  Refinery : option PatrolConfig;
  Witness : option PatrolConfig;
  Deacon : option PatrolConfig
}.

Record DaemonPatrolConfig := mkDaemonPatrolConfig {
  patrolType : string;
  Version : Z;
  Heartbeat : option PatrolConfig;
  Patrols : option PatrolsConfig
}.

(** [IsPatrolEnabled]. *)
Definition IsPatrolEnabled (config : option DaemonPatrolConfig) (patrol : string) : bool :=
  match config with
  | None => true
  | Some c =>
      match Patrols c with
      | None => true
      | Some ps =>
          if String.eqb patrol "refinery" then
            match Refinery ps with Some pc => Enabled pc | None => true end
          else if String.eqb patrol "witness" then
            match Witness ps with Some pc => Enabled pc | None => true end
          else if String.eqb patrol "deacon" then
            match Deacon ps with Some pc => Enabled pc | None => true end
          else true
      end
  end.

(** What the health pass reads from the daemon besides its surroundings: the
    loaded patrol configuration ([d.patrolConfig]), the rigs
    ([d.getKnownRigs()]) and the deacon's session name
    ([d.getDeaconSessionName()]). *)
Record PatrolSetup := mkPatrolSetup {
  patrolConfig : option DaemonPatrolConfig;
  knownRigs : list string;
  deaconSessionName : string
}.

(** The configurations the three checks build; [LastDeath] is left at its
    zero value. *)
Definition deaconHealthConfig (sessionName : string) : AgentHealthConfig :=
  mkAgentHealthConfig "deacon" "" sessionName
    DefaultStuckThreshold DefaultRespawnDelay zeroTime.

Definition witnessHealthConfig (rigName : string) : AgentHealthConfig :=
  mkAgentHealthConfig "witness" rigName ("gt-" +:+ rigName +:+ "-witness")
    DefaultStuckThreshold DefaultRespawnDelay zeroTime.

Definition refineryHealthConfig (rigName : string) : AgentHealthConfig :=
  mkAgentHealthConfig "refinery" rigName ("gt-" +:+ rigName +:+ "-refinery")
    DefaultStuckThreshold DefaultRespawnDelay zeroTime.

(** [checkDeaconAgentHealth], [checkWitnessAgentHealth],
    [checkRefineryAgentHealth]: one evaluation per agent, acted upon by the
    shared switch. *)
Definition checkDeaconAgentHealth (d : Env) (p : PatrolSetup) (w : World) : World :=
  actOnHealth d (deaconHealthConfig (deaconSessionName p)) w.

Definition checkWitnessAgentHealth (d : Env) (p : PatrolSetup) (w : World) : World :=
  fold_left (fun w rigName => actOnHealth d (witnessHealthConfig rigName) w)
    (knownRigs p) w.

Definition checkRefineryAgentHealth (d : Env) (p : PatrolSetup) (w : World) : World :=
  fold_left (fun w rigName => actOnHealth d (refineryHealthConfig rigName) w)
    (knownRigs p) w.

(** [checkPatrolAgentHealth]. *)
Definition checkPatrolAgentHealth (d : Env) (p : PatrolSetup) (w : World) : World :=
  let w := if IsPatrolEnabled (patrolConfig p) "deacon"
           then checkDeaconAgentHealth d p w else w in
  let w := if IsPatrolEnabled (patrolConfig p) "witness"
           then checkWitnessAgentHealth d p w else w in
  if IsPatrolEnabled (patrolConfig p) "refinery"
  then checkRefineryAgentHealth d p w else w.

(** The calls of the stuck-agent remediation. *)
Definition isRemediation (ev : Event) : bool :=
  match ev with
  | EvLogFeedAgentStuck _ _ _ _ | EvKillSessionWithProcesses _ | EvNudgeSession _ _ => true
  | _ => false
  end.

(** [w'] comes from [w] by calls of the kind [kind] only, with inbox and
    state files as they were. *)
Definition addsOnly (kind : Event -> bool) (w w' : World) : Prop :=
  inbox w' = inbox w ∧ files w' = files w ∧
  ∃ evs : list Event, trace w' = (trace w ++ evs)%list ∧ forallb kind evs = true.

(** The test [parseLastActivityFromBead] applies to each label: longer than
    the fourteen bytes of ["last_activity:"] and starting with them. *)
Definition isActivityLabel (label : string) : bool :=
  (14 <? String.length label)%nat
  && String.eqb (String.substring 0 14 label) "last_activity:".

(** ** Orphaned work: the rig of an agent bead *)

(** [strings.LastIndex] for a separator of one byte; [None] is [-1]. *)
Fixpoint LastIndexByte (s : string) (c : ascii) : option nat :=
  match s with
  | EmptyString => None
  | String a s' =>
      match LastIndexByte s' c with
      | Some i => Some (S i)
      | None => if Ascii.eqb a c then Some 0%nat else None
      end
  end.

(** [extractRigFromAgentID]: of [gt-polecat-<rig>-<name>], everything
    between the prefix and the last dash. *)
Definition extractRigFromAgentID (agentID : string) : string :=
  if negb (HasPrefix agentID "gt-polecat-") then ""
  else
    let rest := TrimPrefix agentID "gt-polecat-" in
    match LastIndexByte rest "-" with
    | None => ""
    | Some lastDash => String.substring 0 lastDash rest
    end.

(** ** Sweeps over the agent beads *)

(** An entry of [bd list --type=agent --json], with the fields the sweeps
    read after decoding. *)
Record AgentListing := mkAgentListing {
  listedID : string;
  listedUpdatedAt : string;
  listedHookBead : string;
  listedAgentState : string
}.

(** A [gt mail send] command the daemon runs: recipient, subject and body.
    Whether the command succeeds only changes what is logged. *)
Record Notice := mkNotice {
  noticeTo : string;
  noticeSubject : string;
  noticeBody : string
}.

(** What a sweep sees of the world, after the notices sent so far: the
    decoded agent listing, [None] when [bd list] fails or its output does
    not decode, and the clock. *)
Record SweepSetup := mkSweepSetup {
  bd_list_agents : list Notice -> option (list AgentListing);
  sweepClock : list Notice -> Time
}.

Definition newline : string := String "010" "".

Definition GUPPViolationTimeout : Duration := 30 * Minute.

(** [notifyWitnessOfGUPP]: the mail it sends. *)
Definition notifyWitnessOfGUPP (d : Env) (rigName agentID hookBead : string)
    (stuckDuration : Duration) : Notice :=
  let shown := Duration_String d (Round stuckDuration Minute) in
  mkNotice (rigName +:+ "/witness")
    ("GUPP_VIOLATION: " +:+ agentID +:+ " stuck for " +:+ shown)
    ("Agent " +:+ agentID +:+ " has work on hook but isn't progressing."
     +:+ newline +:+ newline
     +:+ "hook_bead: " +:+ hookBead +:+ newline
     +:+ "stuck_duration: " +:+ shown +:+ newline +:+ newline
     +:+ "Action needed: Check if agent is alive and responsive. Consider restarting if stuck.").

(** The body of the loop of [checkRigGUPPViolations], for one agent of the
    listing. *)
Definition checkAgentGUPPViolation (d : Env) (ss : SweepSetup) (rigName : string)
    (sent : list Notice) (agent : AgentListing) : list Notice :=
  let prefix := "gt-polecat-" +:+ rigName +:+ "-" in
  if negb (HasPrefix (listedID agent) prefix) then sent
  else if String.eqb (listedHookBead agent) "" then sent
  else if String.eqb (listedAgentState agent) "working"
          || String.eqb (listedAgentState agent) "running" then
    match time_Parse_RFC3339 d (listedUpdatedAt agent) with
    | None => sent
    | Some updatedAt =>
        let age := Since (sweepClock ss sent) updatedAt in
        if GUPPViolationTimeout <? age
        then (sent ++ [notifyWitnessOfGUPP d rigName (listedID agent)
                         (listedHookBead agent) age])%list
        else sent
    end
  else sent.

(** [checkRigGUPPViolations]. *)
Definition checkRigGUPPViolations (d : Env) (ss : SweepSetup) (sent : list Notice)
    (rigName : string) : list Notice :=
  match bd_list_agents ss sent with
  | None => sent
  | Some agents => fold_left (checkAgentGUPPViolation d ss rigName) agents sent
  end.

(** [checkGUPPViolations], over the rigs [getKnownRigs] returns. *)
Definition checkGUPPViolations (d : Env) (ss : SweepSetup) (rigs : list string)
    (sent : list Notice) : list Notice :=
  fold_left (checkRigGUPPViolations d ss) rigs sent.

(** [deadAgentInfo] and [getDeadAgents]. *)
Record deadAgentInfo := mkDeadAgentInfo {
  deadID : string;
  deadHookBead : string
}.

Definition getDeadAgents (ss : SweepSetup) (sent : list Notice) : list deadAgentInfo :=
  match bd_list_agents ss sent with
  | None => []
  | Some agents =>
      fold_left
        (fun dead agent =>
           if String.eqb (listedAgentState agent) "dead"
           then (dead ++ [mkDeadAgentInfo (listedID agent) (listedHookBead agent)])%list
           else dead)
        agents []
  end.

(** [notifyWitnessOfOrphanedWork]: the mail it sends. *)
Definition notifyWitnessOfOrphanedWork (rigName agentID hookBead : string) : Notice :=
  mkNotice (rigName +:+ "/witness")
    ("ORPHANED_WORK: " +:+ agentID +:+ " has hooked work but is dead")
    ("Agent " +:+ agentID +:+ " is dead but has work on its hook."
     +:+ newline +:+ newline
     +:+ "hook_bead: " +:+ hookBead +:+ newline +:+ newline
     +:+ "Action needed: Either restart the agent or reassign the work.").

(** [checkOrphanedWork]. *)
Definition checkOrphanedWork (ss : SweepSetup) (sent : list Notice) : list Notice :=
  fold_left
    (fun sent agent =>
       if String.eqb (deadHookBead agent) "" then sent
       else
         let rigName := extractRigFromAgentID (deadID agent) in
         if negb (String.eqb rigName "")
         then (sent ++ [notifyWitnessOfOrphanedWork rigName (deadID agent)
                          (deadHookBead agent)])%list
         else sent)
    (getDeadAgents ss sent) sent.

(** ** Concrete surroundings, for running the definitions *)

Module Examples.

(** A toy clock text: two timestamps are understood. *)
Definition t0 : Time := 63900000000 * Second.

Definition parseTime (s : string) : option Time :=
  if String.eqb s "2025-12-30T08:00:00Z" then Some t0
  else if String.eqb s "2025-12-30T15:00:00Z" then Some (t0 + 7 * Hour)
  else None.

Definition showDuration (x : Duration) : string :=
  if x =? 20 * Minute then "20m0s" else "?".

(** Surroundings whose answers do not change over time: the town root, the
    clock reading, which sessions are alive, whether mail deletion works,
    and the labels of the agent beads. Every other call succeeds; there
    are no role beads. *)
Definition env (root : string) (now : Time) (alive : string -> Result bool)
    (del : string -> option string) (labels : string -> option (list string)) : Env :=
  {| TownRoot := root;
     clock := fun _ => now;
     tmux_HasSession := fun _ => alive;
     tmux_KillSession := fun _ _ => None;
     tmux_KillSessionWithProcesses := fun _ _ => None;
     tmux_NudgeSession := fun _ _ _ => None;
     tmux_EnsureSessionFresh := fun _ _ _ => None;
     tmux_SendKeys := fun _ _ _ => None;
     mail_inbox_ok := fun _ => true;
     mail_delete := fun _ => del;
     fs_read_error := fun _ _ => None;
     fs_write_error := fun _ _ => None;
     bd_agent_bead_info := fun _ id => Ok (mkAgentBeadInfo id "agent" "running" "" "" "" "" "");
     bd_show_labels := fun _ => labels;
     beads_GetRoleConfig := fun _ _ => None;
     workspace_GetTownName := fun _ _ => Ok "ai";
     Duration_String := showDuration;
     time_Parse_RFC3339 := parseTime;
     json_Unmarshal_LifecycleBody := fun _ => None;
     beads_ExpandRolePattern := fun pattern _ _ _ _ => pattern;
     config_GetRuntimeCommand := fun _ => "claude";
     config_BuildPolecatStartupCommand := fun _ _ _ _ => "claude" |}.

Definition emptyWorld : World := mkWorld [] ∅ [].

(** A witness whose last patrol ended at [t0], looked at twenty minutes
    later, with the witness policy's ten-minute stuck threshold. *)
Definition witnessConfig (lastDeath : Time) : AgentHealthConfig :=
  mkAgentHealthConfig "witness" "gastown" "gt-gastown-witness"
    (StuckThreshold (GetRespawnConfig "witness")) DefaultRespawnDelay lastDeath.

Definition witnessEnv (alive : Result bool) : Env :=
  env "/town" (t0 + 20 * Minute) (fun _ => alive) (fun _ => None)
    (fun _ => Some ["gt:agent"; "last_activity:2025-12-30T08:00:00Z"]).

(** The same witness before its first patrol: no activity label yet. *)
Definition freshEnv : Env :=
  env "/town" (t0 + 20 * Minute) (fun _ => Ok true) (fun _ => None)
    (fun _ => Some ["gt:agent"]).


Definition staged (key : string) (val : JSONValue) : gmap string FileData :=
  {[ "/town/gastown/witness/state.json" := FileJSON {[ key := val ]} ]}.

(** Twenty minutes after the request; the witness session is alive. *)
Definition soonEnv (del : string -> option string) : Env :=
  env "/town" (t0 + 20 * Minute) (fun _ => Ok true) del (fun _ => None).

(** Seven hours after the request. *)
Definition lateEnv (del : string -> option string) : Env :=
  env "/town" (t0 + 7 * Hour) (fun _ => Ok true) del (fun _ => None).

Definition deleteWorks : string -> option string := fun _ => None.

(** Four agent beads as [bd list] shows them, and a world where the
    listing and the clock stand still. *)
Definition listing : list AgentListing :=
  [mkAgentListing "gt-polecat-gastown-max" "2025-12-30T08:00:00Z" "gt-abc12" "dead";
   mkAgentListing "gt-polecat-gastown-nux" "2025-12-30T08:00:00Z" "" "dead";
   mkAgentListing "gt-gastown-witness" "2025-12-30T08:00:00Z" "gt-def34" "dead";
   mkAgentListing "gt-polecat-gastown-toast" "2025-12-30T08:00:00Z" "gt-xyz99" "working"].

Definition sweep (now : Time) : SweepSetup :=
  mkSweepSetup (fun _ => Some listing) (fun _ => now).

End Examples.

(** * Properties *)

(** ** Respawn policy *)

(** C8. The policy lookup is a total function of the role string, and for
    every role outside the static table (deacon, witness, refinery) it
    returns exactly Delay = 5 minutes, StuckThreshold = 15 minutes,
    Trigger = "always". *)
Theorem GetRespawnConfig_unknown_role (role : string) :
  role ≠ "deacon" → role ≠ "witness" → role ≠ "refinery" →
  DefaultRespawnConfigs !! role = None ∧
  GetRespawnConfig role =
    {| Delay := 5 * Minute; StuckThreshold := 15 * Minute; Trigger := "always" |}.
Proof.
  intros Hd Hw Hr.
  assert (Hnone : DefaultRespawnConfigs !! role = None).
  { unfold DefaultRespawnConfigs.
    rewrite !lookup_insert_ne by congruence. apply lookup_empty. }
  split; [exact Hnone|].
  unfold GetRespawnConfig. rewrite Hnone. reflexivity.
Qed.

Lemma GetRespawnConfig_unknown_role_witness :
  DefaultRespawnConfigs !! "unknown-role" = None ∧
  GetRespawnConfig "unknown-role" =
    {| Delay := 5 * Minute; StuckThreshold := 15 * Minute; Trigger := "always" |}.
Proof.
  apply (GetRespawnConfig_unknown_role "unknown-role"); discriminate.
Defined.

(** The three configured roles, as in [TestGetRespawnConfig_KnownRoles]. *)
Example GetRespawnConfig_known_roles :
  GetRespawnConfig "deacon" = mkRespawnConfig (5 * Minute) (15 * Minute) "always" ∧
  GetRespawnConfig "witness" = mkRespawnConfig (5 * Minute) (10 * Minute) "always" ∧
  GetRespawnConfig "refinery" = mkRespawnConfig 0 (5 * Minute) "mq-not-empty".
Proof. repeat split; vm_compute; reflexivity. Qed.

(** ** Respawn bookkeeping *)

Lemma GetAgentState_lookup (s : State) (agentID : string) :
  Agents (GetAgentState s agentID).2 !! agentID = Some (GetAgentState s agentID).1.
Proof.
  unfold GetAgentState. destruct (Agents s !! agentID) eqn:E; simpl.
  - exact E.
  - apply lookup_insert_eq.
Qed.

Lemma GetAgentState_other (s : State) (agentID other : string) :
  other ≠ agentID →
  Agents (GetAgentState s agentID).2 !! other = Agents s !! other.
Proof.
  intros Hne. unfold GetAgentState.
  destruct (Agents s !! agentID); simpl; [reflexivity|].
  apply lookup_insert_ne. congruence.
Qed.

(** C10. After [ScheduleRespawn] the agent's entry carries the given session
    and exit reason, its LastExitedAt is set (to the clock reading), and its
    RespawnScheduledAt is LastExitedAt plus the Delay of the role's policy;
    the entries of all other agents are as before. *)
Theorem ScheduleRespawn_entry (now : Time) (s : State)
    (agentID session role exitReason : string) :
  let s' := ScheduleRespawn now s agentID session role exitReason in
  (∃ (a : AgentState) (exited : Time),
      Agents s' !! agentID = Some a ∧
      Session a = session ∧
      ExitReason a = exitReason ∧
      LastExitedAt a = Some exited ∧
      exited = now ∧
      RespawnScheduledAt a = Some (Add exited (Delay (GetRespawnConfig role)))) ∧
  (∀ other : string, other ≠ agentID → Agents s' !! other = Agents s !! other).
Proof.
  unfold ScheduleRespawn.
  destruct (GetAgentState s agentID) as [agent s1] eqn:E.
  assert (Hother : ∀ other, other ≠ agentID → Agents s1 !! other = Agents s !! other).
  { intros other Hne.
    change s1 with (agent, s1).2. rewrite <- E. by apply GetAgentState_other. }
  cbn zeta. split.
  - eexists _, now. unfold storeAgent; simpl.
    rewrite lookup_insert_eq. repeat split; reflexivity.
  - intros other Hne. unfold storeAgent; simpl.
    rewrite lookup_insert_ne by congruence. by apply Hother.
Qed.

Lemma ScheduleRespawn_entry_witness :
  let s := mkState true 1 0 0 0 (<["gastown/witness" := emptyAgentState]> ∅) in
  let s' := ScheduleRespawn Examples.t0 s "deacon" "gt-deacon" "deacon" "crash" in
  Agents s' !! "gastown/witness" = Agents s !! "gastown/witness".
Proof.
  intros s s'.
  apply (ScheduleRespawn_entry Examples.t0 s "deacon" "gt-deacon" "deacon" "crash").
  discriminate.
Defined.

(** [TestState_ScheduleRespawn] and [TestState_ClearRespawn]. *)
Example ScheduleRespawn_then_clear :
  let s := ScheduleRespawn Examples.t0 (mkState false 0 0 0 0 ∅)
             "deacon" "gt-deacon" "deacon" "crash" in
  Agents s !! "deacon" =
    Some (mkAgentState "gt-deacon" None (Some (Examples.t0 + 5 * Minute))
            (Some Examples.t0) "crash") ∧
  Agents (ClearRespawn s "deacon" "gt-deacon-new") !! "deacon" =
    Some (mkAgentState "gt-deacon-new" None None None "").
Proof. split; vm_compute; reflexivity. Qed.

(** ** Health evaluator *)

Section HealthFacts.

Variable d : Env.
Variable tr : list Event.
Variable config : AgentHealthConfig.

(** With the probe answering, the result reports its answer. *)
Lemma checkAgentHealth_alive (alive : bool) :
  tmux_HasSession d tr (SessionName config) = Ok alive →
  SessionAlive (checkAgentHealth d tr config) = alive.
Proof.
  intros H. unfold checkAgentHealth. rewrite H.
  repeat match goal with |- context [if ?b then _ else _] => destruct b end;
    reflexivity.
Qed.

(** The heartbeat age of the result: the time since the last patrol when
    one was recorded, zero otherwise. *)
Lemma checkAgentHealth_age (alive : bool) :
  tmux_HasSession d tr (SessionName config) = Ok alive →
  HeartbeatAge (checkAgentHealth d tr config) =
    let last := getLastPatrolCompleted d tr (Role config) (RigName config) in
    if IsZero last then 0 else Since (clock d tr) last.
Proof.
  intros H. unfold checkAgentHealth. rewrite H. cbn zeta.
  destruct (IsZero (getLastPatrolCompleted d tr (Role config) (RigName config)));
    simpl;
    repeat match goal with |- context [if ?b then _ else _] => destruct b end;
    reflexivity.
Qed.

End HealthFacts.

(** C2. With the session dead, the status is needs_respawn when no death
    time is recorded or the time since the recorded death is at least the
    respawn delay, and waiting_respawn otherwise; the heartbeat (whatever the
    work-item store answers) plays no part. *)
Theorem checkAgentHealth_session_dead (d : Env) (tr : list Event)
    (config : AgentHealthConfig) :
  tmux_HasSession d tr (SessionName config) = Ok false →
  let elapsed := Since (clock d tr) (LastDeath config) in
  let status := Status (checkAgentHealth d tr config) in
  (IsZero (LastDeath config) = true ∨ RespawnDelay config <= elapsed →
     status = StatusNeedsRespawn) ∧
  (IsZero (LastDeath config) = false ∧ elapsed < RespawnDelay config →
     status = StatusWaitingRespawn).
Proof.
  intros H elapsed status. subst elapsed status.
  unfold checkAgentHealth, respawnDelayElapsed. rewrite H. cbn zeta. simpl negb.
  split.
  - intros [Hz | Hle].
    + rewrite Hz. reflexivity.
    + destruct (IsZero (LastDeath config)); [reflexivity|].
      apply Z.leb_le in Hle. rewrite Hle. reflexivity.
  - intros [Hz Hlt]. rewrite Hz.
    apply Z.leb_gt in Hlt. rewrite Hlt. reflexivity.
Qed.

(** Scenario A: a dead merge processor, ten seconds after its death, with
    the refinery policy's zero delay. *)
Lemma checkAgentHealth_session_dead_witness :
  let d := Examples.witnessEnv (Ok false) in
  let config := mkAgentHealthConfig "refinery" "gastown" "gt-gastown-refinery"
                  (StuckThreshold (GetRespawnConfig "refinery"))
                  (Delay (GetRespawnConfig "refinery"))
                  (Examples.t0 + 20 * Minute - 10 * Second) in
  Status (checkAgentHealth d [] config) = StatusNeedsRespawn.
Proof.
  intros d config.
  apply (checkAgentHealth_session_dead d [] config).
  - reflexivity.
  - right. vm_compute. discriminate.
Defined.

(** The other side: a dead witness, ten seconds after its death, with the
    default thirty-second delay. *)
Example checkAgentHealth_waiting :
  Status (checkAgentHealth (Examples.witnessEnv (Ok false)) []
            (Examples.witnessConfig (Examples.t0 + 20 * Minute - 10 * Second)))
  = StatusWaitingRespawn.
Proof. vm_compute. reflexivity. Qed.

(** C3. With the session alive: healthy when the heartbeat age is at most
    the stuck threshold; stuck when it exceeds the threshold and a heartbeat
    was recorded; healthy, not stuck, when no heartbeat was ever recorded. *)
Theorem checkAgentHealth_session_alive (d : Env) (tr : list Event)
    (config : AgentHealthConfig) :
  tmux_HasSession d tr (SessionName config) = Ok true →
  let result := checkAgentHealth d tr config in
  let last := getLastPatrolCompleted d tr (Role config) (RigName config) in
  (HeartbeatAge result <= cfgStuckThreshold config → Status result = StatusHealthy) ∧
  (cfgStuckThreshold config < HeartbeatAge result → IsZero last = false →
     Status result = StatusStuck) ∧
  (IsZero last = true → Status result = StatusHealthy) ∧
  (IsZero last = false → HeartbeatAge result = Since (clock d tr) last).
Proof.
  intros H result last.
  pose proof (checkAgentHealth_age d tr config true H) as Hage.
  cbn zeta in Hage. fold last in Hage. fold result in Hage.
  assert (Hst : Status result =
                if cfgStuckThreshold config <? HeartbeatAge result
                then if IsZero last then StatusHealthy else StatusStuck
                else StatusHealthy).
  { rewrite Hage. unfold result, checkAgentHealth. rewrite H. cbn zeta.
    fold last. simpl negb; simpl andb.
    destruct (IsZero last); simpl;
      repeat match goal with |- context [if ?b then _ else _] => destruct b end;
      reflexivity. }
  repeat split.
  - intros Hle. rewrite Hst.
    destruct (Z.ltb_spec (cfgStuckThreshold config) (HeartbeatAge result));
      [lia | reflexivity].
  - intros Hlt Hz. rewrite Hst, Hz.
    apply Z.ltb_lt in Hlt. rewrite Hlt. reflexivity.
  - intros Hz. rewrite Hst, Hz.
    destruct (cfgStuckThreshold config <? HeartbeatAge result); reflexivity.
  - intros Hz. rewrite Hage, Hz. reflexivity.
Qed.

(** A witness with a twenty-minute-old heartbeat and a ten-minute threshold
    is stuck. *)
Lemma checkAgentHealth_session_alive_witness :
  Status (checkAgentHealth (Examples.witnessEnv (Ok true)) [] (Examples.witnessConfig 0))
  = StatusStuck.
Proof.
  apply (checkAgentHealth_session_alive (Examples.witnessEnv (Ok true)) []
           (Examples.witnessConfig 0)).
  - reflexivity.
  - vm_compute. reflexivity.
  - vm_compute. reflexivity.
Defined.

(** First-startup grace: alive, no heartbeat yet. *)
Example checkAgentHealth_first_startup :
  checkAgentHealth Examples.freshEnv [] (Examples.witnessConfig 0) =
  mkAgentHealthResult StatusHealthy true 0 zeroTime "healthy".
Proof. vm_compute. reflexivity. Qed.

(** C9. When the liveness probe returns an error the result is healthy and
    its message carries the error; it is none of the other three states. *)
Theorem checkAgentHealth_probe_error (d : Env) (tr : list Event)
    (config : AgentHealthConfig) (err : string) :
  tmux_HasSession d tr (SessionName config) = Err err →
  let result := checkAgentHealth d tr config in
  Status result = StatusHealthy ∧
  Message result = "error checking session: " +:+ err ∧
  Status result ≠ StatusNeedsRespawn ∧
  Status result ≠ StatusWaitingRespawn ∧
  Status result ≠ StatusStuck.
Proof.
  intros H result. subst result. unfold checkAgentHealth. rewrite H. simpl.
  repeat split; discriminate.
Qed.

Lemma checkAgentHealth_probe_error_witness :
  let result := checkAgentHealth (Examples.witnessEnv (Err "exit status 1")) []
                  (Examples.witnessConfig 0) in
  Status result = StatusHealthy ∧
  Message result = "error checking session: exit status 1" ∧
  Status result ≠ StatusNeedsRespawn ∧
  Status result ≠ StatusWaitingRespawn ∧
  Status result ≠ StatusStuck.
Proof.
  apply (checkAgentHealth_probe_error (Examples.witnessEnv (Err "exit status 1")) []
           (Examples.witnessConfig 0) "exit status 1").
  reflexivity.
Defined.

(** ** Stuck-agent remediation *)

Lemma skipn_length_app {A : Type} (l k : list A) :
  List.skipn (List.length l) (l ++ k) = k.
Proof. induction l; simpl; auto. Qed.

(** C7. The remediation of a stuck agent is the feed record followed by one
    call: the kill of the session with its processes exactly when the
    heartbeat age exceeds the fixed thirty-minute critical threshold, and a
    nudge of the live session otherwise. It is applied on the stuck
    classification and on no other. In particular a witness with a
    twenty-minute-old heartbeat and a ten-minute stuck threshold is
    classified stuck and nudged, not killed. *)
Theorem handleStuckAgent_kill_or_nudge :
  CriticalStuckThreshold = 30 * Minute ∧
  (∀ (d : Env) (config : AgentHealthConfig) (result : AgentHealthResult) (w : World),
      ∃ remedy : Event,
        remediation d config result w =
          [EvLogFeedAgentStuck (Role config) (RigName config) (SessionName config)
             (Duration_String d (HeartbeatAge result)); remedy] ∧
        (remedy = EvKillSessionWithProcesses (SessionName config)
           ↔ CriticalStuckThreshold < HeartbeatAge result) ∧
        ((∃ msg : string, remedy = EvNudgeSession (SessionName config) msg)
           ↔ HeartbeatAge result <= CriticalStuckThreshold)) ∧
  (∀ (d : Env) (config : AgentHealthConfig) (w : World),
      let result := checkAgentHealth d (trace w) config in
      actOnHealth d config w =
        match Status result with
        | StatusStuck => handleStuckAgent d config result w
        | _ => w
        end) ∧
  (let d := Examples.witnessEnv (Ok true) in
   let config := Examples.witnessConfig 0 in
   cfgStuckThreshold config = 10 * Minute ∧
   HeartbeatAge (checkAgentHealth d [] config) = 20 * Minute ∧
   Status (checkAgentHealth d [] config) = StatusStuck ∧
   trace (actOnHealth d config Examples.emptyWorld) =
     [EvLogFeedAgentStuck "witness" "gastown" "gt-gastown-witness" "20m0s";
      EvNudgeSession "gt-gastown-witness"
        "HEALTH_CHECK: heartbeat stale (20m0s old), please respond to confirm responsiveness"]).
Proof.
  split; [reflexivity|]. split; [|split].
  - intros d config result w.
    unfold remediation, handleStuckAgent.
    destruct (Z.ltb_spec CriticalStuckThreshold (HeartbeatAge result)) as [Hlt | Hge].
    + eexists. split.
      * simpl. rewrite <- List.app_assoc. rewrite skipn_length_app. reflexivity.
      * split; split; try (intros; reflexivity); try (intros; assumption).
        -- intros [msg Hmsg]. discriminate Hmsg.
        -- intros Hle. lia.
    + eexists. split.
      * simpl. rewrite <- List.app_assoc. rewrite skipn_length_app. reflexivity.
      * split; split.
        -- intros Heq. discriminate Heq.
        -- intros Hlt. lia.
        -- intros _. exact Hge.
        -- intros _. eexists. reflexivity.
  - intros d config w result. unfold actOnHealth. fold result.
    destruct (Status result); reflexivity.
  - vm_compute. repeat split; reflexivity.
Qed.

(** ** Splitting and joining *)

Section SplitJoin.

Variable c : ascii.

Lemma SplitByte_nonempty (s : string) : SplitByte s c ≠ [].
Proof.
  destruct s as [|a s]; simpl; [discriminate|].
  destruct (Ascii.eqb a c); [discriminate|].
  destruct (SplitByte s c); discriminate.
Qed.

Lemma SplitByte_length (s : string) : (1 <= List.length (SplitByte s c))%nat.
Proof.
  pose proof (SplitByte_nonempty s).
  destruct (SplitByte s c); [congruence | simpl; lia].
Qed.

(** Splitting distributes over a separator in the middle. *)
Lemma SplitByte_app (a b : string) :
  SplitByte (a +:+ String c b) c = (SplitByte a c ++ SplitByte b c)%list.
Proof.
  induction a as [|x a IH]; simpl.
  - rewrite Ascii.eqb_refl. reflexivity.
  - destruct (Ascii.eqb x c).
    + rewrite IH. reflexivity.
    + rewrite IH. pose proof (SplitByte_nonempty a).
      destruct (SplitByte a c); [congruence | reflexivity].
Qed.

(** Joining the pieces with the separator gives the text back. *)
Lemma Join_SplitByte (s : string) : Join (SplitByte s c) (String c "") = s.
Proof.
  induction s as [|x s IH]; simpl; [reflexivity|].
  pose proof (SplitByte_nonempty s) as Hne.
  destruct (Ascii.eqb x c) eqn:E.
  - apply Ascii.eqb_eq in E. subst x.
    destruct (SplitByte s c) as [|p ps]; [congruence|].
    simpl in *. rewrite IH. reflexivity.
  - destruct (SplitByte s c) as [|p ps]; [congruence|].
    destruct ps as [|q qs]; simpl in *; rewrite <- IH; reflexivity.
Qed.

Lemma SplitByte_no_sep (s : string) : hasByte s c = false → SplitByte s c = [s].
Proof.
  induction s as [|x s IH]; simpl; [reflexivity|].
  intros H. apply orb_false_iff in H as [Hx Hs].
  rewrite Hx, (IH Hs). reflexivity.
Qed.

(** No piece of a split contains the separator. *)
Lemma SplitByte_pieces (s : string) :
  Forall (fun p => hasByte p c = false) (SplitByte s c).
Proof.
  induction s as [|x s IH]; simpl.
  - constructor; [reflexivity | constructor].
  - destruct (Ascii.eqb x c) eqn:E.
    + constructor; [reflexivity | exact IH].
    + destruct (SplitByte s c) as [|p ps]; [constructor; [|constructor]|].
      * simpl. rewrite E. reflexivity.
      * apply Forall_cons in IH as [Hp Hps].
        constructor; [|exact Hps]. simpl. rewrite E, Hp. reflexivity.
Qed.

(** Splitting a join of pieces without separator gives the pieces back. *)
Lemma SplitByte_Join (pieces : list string) :
  pieces ≠ [] → Forall (fun p => hasByte p c = false) pieces →
  SplitByte (Join pieces (String c "")) c = pieces.
Proof.
  induction pieces as [|p ps IH]; [congruence|].
  intros _ Hall. apply Forall_cons in Hall as [Hp Hps].
  destruct ps as [|q qs].
  - simpl. by apply SplitByte_no_sep.
  - change (Join (p :: q :: qs) (String c ""))
      with (p +:+ String c (Join (q :: qs) (String c ""))).
    rewrite SplitByte_app, (SplitByte_no_sep p Hp), IH by (congruence || assumption).
    reflexivity.
Qed.

End SplitJoin.

Lemma substring_whole (s : string) : String.substring 0 (String.length s) s = s.
Proof. induction s; simpl; congruence. Qed.

Lemma last_app_nonempty {A : Type} (l k : list A) (dflt : A) :
  k ≠ [] → List.last (l ++ k)%list dflt = List.last k dflt.
Proof.
  intros Hk. induction l as [|x l IH]; [reflexivity|].
  simpl. destruct (l ++ k)%list eqn:E; [|exact IH].
  destruct l; simpl in E; congruence.
Qed.

Lemma firstn_length_app {A : Type} (l k : list A) :
  List.firstn (List.length l) (l ++ k)%list = l.
Proof. induction l; simpl; [reflexivity | congruence]. Qed.

(** ** Session names *)

Module session_facts.
Import session.

(** The four role words that [ParseSessionName] looks for in the last
    segment. *)
Lemma ParseSessionName_prefixed (x : string) :
  x ≠ "" →
  ParseSessionName (Prefix +:+ x) =
    let parts := SplitByte x "-" in
    let n := List.length parts in
    if (n <? 2)%nat then Invalid ExpectedTwoSegments
    else
      let lastPart := List.last parts "" in
      let front := Join (List.firstn (n - 1) parts) "-" in
      if String.eqb lastPart "mayor" then
        Parsed (mkAgentIdentity RoleMayor front "" "")
      else if String.eqb lastPart "deacon" then
        Parsed (mkAgentIdentity RoleDeacon front "" "")
      else if String.eqb lastPart "witness" then
        Parsed (mkAgentIdentity RoleWitness "" front "")
      else if String.eqb lastPart "refinery" then
        Parsed (mkAgentIdentity RoleRefinery "" front "")
      else
        match findCrew parts 0 n with
        | Some i =>
            Parsed (mkAgentIdentity RoleCrew ""
                      (Join (List.firstn i parts) "-")
                      (Join (List.skipn (i + 1) parts) "-"))
        | None => Parsed (mkAgentIdentity RolePolecat "" front lastPart)
        end.
Proof.
  intros Hne. unfold ParseSessionName.
  assert (Hpre : HasPrefix (Prefix +:+ x) Prefix = true).
  { unfold HasPrefix, Prefix. simpl.
    repeat (destruct (ascii_dec _ _); [|congruence]).
    destruct x; reflexivity. }
  assert (Htrim : TrimPrefix (Prefix +:+ x) Prefix = x).
  { unfold TrimPrefix. rewrite Hpre. unfold from, Prefix. simpl.
    rewrite Nat.sub_0_r. apply substring_whole. }
  rewrite Hpre, Htrim. simpl negb. cbv iota.
  destruct (String.eqb_spec x ""); [congruence|].
  cbn zeta.
  destruct (List.length (SplitByte x "-") <? 2)%nat eqn:E; [reflexivity|].
  reflexivity.
Qed.

Lemma append_sep_nonempty (a b : string) (c : ascii) : a +:+ String c b ≠ "".
Proof. destruct a; discriminate. Qed.

(** The same, with the segments split into all but the last and the
    last. *)
Lemma ParseSessionName_parts (x : string) (front : list string) (lastPart : string) :
  x ≠ "" → front ≠ [] →
  SplitByte x "-" = (front ++ [lastPart])%list →
  ParseSessionName (Prefix +:+ x) =
    if String.eqb lastPart "mayor" then
      Parsed (mkAgentIdentity RoleMayor (Join front "-") "" "")
    else if String.eqb lastPart "deacon" then
      Parsed (mkAgentIdentity RoleDeacon (Join front "-") "" "")
    else if String.eqb lastPart "witness" then
      Parsed (mkAgentIdentity RoleWitness "" (Join front "-") "")
    else if String.eqb lastPart "refinery" then
      Parsed (mkAgentIdentity RoleRefinery "" (Join front "-") "")
    else
      let parts := (front ++ [lastPart])%list in
      match findCrew parts 0 (List.length parts) with
      | Some i =>
          Parsed (mkAgentIdentity RoleCrew ""
                    (Join (List.firstn i parts) "-")
                    (Join (List.skipn (i + 1) parts) "-"))
      | None => Parsed (mkAgentIdentity RolePolecat "" (Join front "-") lastPart)
      end.
Proof.
  intros Hx Hfront Hsplit.
  rewrite (ParseSessionName_prefixed x Hx). cbn zeta. rewrite Hsplit.
  rewrite List.length_app. simpl List.length.
  replace (List.length front + 1 - 1)%nat with (List.length front) by lia.
  rewrite firstn_length_app.
  rewrite last_app_nonempty by discriminate. simpl List.last.
  destruct front as [|f front']; [congruence|].
  simpl List.length.
  replace (S (List.length front') + 1 <? 2)%nat with false
    by (symmetry; apply Nat.ltb_ge; lia).
  reflexivity.
Qed.

(** A name ending in a segment free of hyphens. *)
Lemma SplitByte_tail_word (t w : string) :
  hasByte w "-" = false →
  SplitByte (t +:+ String "-" w) "-" = (SplitByte t "-" ++ [w])%list.
Proof. intros Hw. rewrite SplitByte_app, (SplitByte_no_sep _ w Hw). reflexivity. Qed.

(** The crew loop passes over segments that are not the marker. *)
Lemma findCrew_skip (segs rest : list string) (i n : nat) :
  forallb (fun p => negb (String.eqb p "crew")) segs = true →
  findCrew (segs ++ rest)%list i n = findCrew rest (i + List.length segs) n.
Proof.
  revert i. induction segs as [|p segs IH]; intros i H; simpl.
  - f_equal. lia.
  - simpl in H. apply andb_true_iff in H as [Hp Hsegs].
    apply negb_true_iff in Hp. rewrite Hp. simpl.
    rewrite (IH (S i) Hsegs). f_equal. lia.
Qed.

(** It never stops at the first segment. *)
Lemma findCrew_first (p : string) (rest : list string) (n : nat) :
  findCrew (p :: rest) 0 n = findCrew rest 1 n.
Proof. simpl. rewrite andb_false_r. reflexivity. Qed.

Lemma findCrew_rig (rig : string) (rest : list string) (n : nat) :
  session_canon.rigReadable rig = true →
  findCrew (SplitByte rig "-" ++ rest)%list 0 n =
  findCrew rest (List.length (SplitByte rig "-")) n.
Proof.
  unfold session_canon.rigReadable. intros H.
  pose proof (SplitByte_nonempty "-" rig) as Hne.
  destruct (SplitByte rig "-") as [|r0 segs]; [congruence|].
  simpl List.tl in H. simpl app. rewrite findCrew_first.
  rewrite (findCrew_skip segs rest 1 n H). reflexivity.
Qed.

Lemma skipn_past_app {A : Type} (l k : list A) (x : A) :
  List.skipn (List.length l + 1) (l ++ x :: k)%list = k.
Proof. induction l; simpl; auto. Qed.

Lemma isRoleWord_false (w : string) :
  session_canon.isRoleWord w = false →
  String.eqb w "mayor" = false ∧ String.eqb w "deacon" = false ∧
  String.eqb w "witness" = false ∧ String.eqb w "refinery" = false.
Proof.
  unfold session_canon.isRoleWord. intros H.
  repeat (apply orb_false_iff in H as [H ?]). auto.
Qed.

(** The town-level and rig-level singletons: the role word is the last
    segment, everything before it is the town or the rig. *)
Lemma ParseSessionName_role_word (scope word : string) :
  hasByte word "-" = false →
  ParseSessionName (Prefix +:+ scope +:+ String "-" word) =
    if String.eqb word "mayor" then Parsed (mkAgentIdentity RoleMayor scope "" "")
    else if String.eqb word "deacon" then Parsed (mkAgentIdentity RoleDeacon scope "" "")
    else if String.eqb word "witness" then Parsed (mkAgentIdentity RoleWitness "" scope "")
    else if String.eqb word "refinery" then Parsed (mkAgentIdentity RoleRefinery "" scope "")
    else
      let parts := (SplitByte scope "-" ++ [word])%list in
      match findCrew parts 0 (List.length parts) with
      | Some i =>
          Parsed (mkAgentIdentity RoleCrew ""
                    (Join (List.firstn i parts) "-")
                    (Join (List.skipn (i + 1) parts) "-"))
      | None => Parsed (mkAgentIdentity RolePolecat "" scope word)
      end.
Proof.
  intros Hw.
  rewrite (ParseSessionName_parts _ (SplitByte scope "-") word
             (append_sep_nonempty _ _ _) (SplitByte_nonempty _ _)
             (SplitByte_tail_word scope word Hw)).
  rewrite Join_SplitByte. reflexivity.
Qed.

Lemma roundtrip_crew (rig name : string) :
  session_canon.rigReadable rig = true →
  session_canon.isRoleWord (List.last (SplitByte name "-") "") = false →
  ParseSessionName (CrewSessionName rig name) =
  Parsed (mkAgentIdentity RoleCrew "" rig name).
Proof.
  intros Hrig Hname. unfold CrewSessionName.
  change ("-crew-" +:+ name) with (String "-" ("crew" +:+ String "-" name)).
  set (R := SplitByte rig "-"). set (N := SplitByte name "-").
  assert (Hsplit : SplitByte (rig +:+ String "-" ("crew" +:+ String "-" name)) "-"
                   = (R ++ "crew" :: N)%list).
  { rewrite !SplitByte_app. reflexivity. }
  destruct (List.exists_last (SplitByte_nonempty "-" name)) as [N' [ln HN]].
  fold N in HN, Hname.
  assert (Hlast : List.last N "" = ln).
  { rewrite HN. apply List.last_last. }
  rewrite Hlast in Hname.
  rewrite (ParseSessionName_parts _ (R ++ "crew" :: N')%list ln).
  - destruct (isRoleWord_false ln Hname) as (-> & -> & -> & ->).
    cbn zeta.
    replace ((R ++ "crew" :: N') ++ [ln])%list with (R ++ "crew" :: N)%list
      by (rewrite HN, <- List.app_assoc; reflexivity).
    unfold R at 1. rewrite (findCrew_rig rig _ _ Hrig). fold R.
    pose proof (SplitByte_length "-" rig) as HR. fold R in HR.
    pose proof (SplitByte_length "-" name) as HNl. fold N in HNl.
    simpl findCrew.
    replace (0 <? List.length R)%nat with true
      by (symmetry; apply Nat.ltb_lt; lia).
    replace (List.length R <? List.length (R ++ "crew" :: N)%list - 1)%nat with true
      by (symmetry; apply Nat.ltb_lt; rewrite List.length_app; simpl; lia).
    simpl andb. cbv iota.
    rewrite firstn_length_app, skipn_past_app.
    unfold R, N. rewrite !Join_SplitByte. reflexivity.
  - apply append_sep_nonempty.
  - destruct R; discriminate.
  - rewrite Hsplit, HN, <- List.app_assoc. reflexivity.
Qed.

Lemma roundtrip_polecat (rig name : string) :
  session_canon.rigReadable rig = true →
  hasByte name "-" = false →
  session_canon.isRoleWord name = false →
  ParseSessionName (PolecatSessionName rig name) =
  Parsed (mkAgentIdentity RolePolecat "" rig name).
Proof.
  intros Hrig Hhyphen Hname. unfold PolecatSessionName.
  change ("-" +:+ name) with (String "-" name).
  rewrite (ParseSessionName_role_word rig name Hhyphen).
  destruct (isRoleWord_false name Hname) as (-> & -> & -> & ->).
  cbn zeta. rewrite (findCrew_rig rig _ _ Hrig).
  rewrite List.length_app. simpl.
  replace (List.length (SplitByte rig "-") <?
           List.length (SplitByte rig "-") + 1 - 1)%nat with false
    by (symmetry; apply Nat.ltb_ge; lia).
  rewrite andb_false_r. reflexivity.
Qed.

(** *** The readable form is necessary *)

Lemma findCrew_found (parts : list string) (i n k : nat) :
  findCrew parts i n = Some k → (0 < k ∧ i <= k)%nat.
Proof.
  revert i. induction parts as [|p parts IH]; intros i; simpl; [discriminate|].
  destruct (String.eqb p "crew" && (0 <? i)%nat && (i <? n - 1)%nat) eqn:E.
  - intros [= <-]. apply andb_true_iff in E as [E _].
    apply andb_true_iff in E as [_ E]. apply Nat.ltb_lt in E. lia.
  - intros H. apply IH in H. lia.
Qed.

(** If the loop gets past a run of inner segments, none of them is the
    marker. *)
Lemma findCrew_past (segs rest : list string) (i n : nat) (found : option nat) :
  (0 < i)%nat → (i + List.length segs <= n - 1)%nat →
  findCrew (segs ++ rest)%list i n = found →
  (∀ k, found = Some k → (i + List.length segs <= k)%nat) →
  forallb (fun p => negb (String.eqb p "crew")) segs = true.
Proof.
  revert i. induction segs as [|p segs IH]; intros i Hi Hn Hfound Hlate;
    [reflexivity|].
  simpl in *.
  replace (0 <? i)%nat with true in Hfound by (symmetry; apply Nat.ltb_lt; lia).
  replace (i <? n - 1)%nat with true in Hfound by (symmetry; apply Nat.ltb_lt; lia).
  destruct (String.eqb p "crew"); simpl in Hfound.
  - specialize (Hlate i (eq_sym Hfound)). lia.
  - simpl. apply (IH (S i)); [lia | lia | exact Hfound |].
    intros k Hk. specialize (Hlate k Hk). lia.
Qed.

Lemma rigReadable_from_findCrew (rig : string) (rest : list string) (n : nat)
    (found : option nat) :
  (List.length (SplitByte rig "-") <= n - 1)%nat →
  findCrew (SplitByte rig "-" ++ rest)%list 0 n = found →
  (∀ k, found = Some k → (List.length (SplitByte rig "-") <= k)%nat) →
  session_canon.rigReadable rig = true.
Proof.
  unfold session_canon.rigReadable.
  destruct (SplitByte rig "-") as [|r0 segs]; [reflexivity|].
  simpl List.tl. simpl List.length. simpl app. rewrite findCrew_first.
  intros Hn Hfound Hlate.
  apply (findCrew_past segs rest 1 n found); [lia | lia | exact Hfound |].
  intros k Hk. specialize (Hlate k Hk). lia.
Qed.

Lemma isRoleWord_true (w : string) :
  session_canon.isRoleWord w = true →
  String.eqb w "mayor" = true ∨ String.eqb w "deacon" = true ∨
  String.eqb w "witness" = true ∨ String.eqb w "refinery" = true.
Proof.
  unfold session_canon.isRoleWord. intros H.
  repeat (apply orb_true_iff in H as [H | H]); tauto.
Qed.

(** What parsing answers when the last segment is a role word: one of the
    four singleton roles. *)
Lemma ParseSessionName_parts_role (x : string) (front : list string)
    (lastPart : string) (a : AgentIdentity) :
  x ≠ "" → front ≠ [] →
  SplitByte x "-" = (front ++ [lastPart])%list →
  session_canon.isRoleWord lastPart = true →
  ParseSessionName (Prefix +:+ x) = Parsed a →
  Role_ a ≠ RoleCrew ∧ Role_ a ≠ RolePolecat.
Proof.
  intros Hx Hfront Hsplit Hword.
  rewrite (ParseSessionName_parts x front lastPart Hx Hfront Hsplit).
  destruct (String.eqb lastPart "mayor") eqn:E1; [intros [= <-]; by split|].
  destruct (String.eqb lastPart "deacon") eqn:E2; [intros [= <-]; by split|].
  destruct (String.eqb lastPart "witness") eqn:E3; [intros [= <-]; by split|].
  destruct (String.eqb lastPart "refinery") eqn:E4; [intros [= <-]; by split|].
  apply isRoleWord_true in Hword.
  destruct Hword as [H | [H | [H | H]]]; congruence.
Qed.

Lemma readable_crew (town rig name : string) :
  ParseSessionName (CrewSessionName rig name) =
    Parsed (mkAgentIdentity RoleCrew town rig name) →
  town = "" ∧ session_canon.rigReadable rig = true ∧
  session_canon.isRoleWord (List.last (SplitByte name "-") "") = false.
Proof.
  unfold CrewSessionName.
  change ("-crew-" +:+ name) with (String "-" ("crew" +:+ String "-" name)).
  set (R := SplitByte rig "-"). set (N := SplitByte name "-").
  destruct (List.exists_last (SplitByte_nonempty "-" name)) as [N' [ln HN]].
  fold N in HN.
  assert (Hsplit : SplitByte (rig +:+ String "-" ("crew" +:+ String "-" name)) "-"
                   = ((R ++ "crew" :: N') ++ [ln])%list).
  { rewrite !SplitByte_app. fold R N. rewrite HN, <- List.app_assoc. reflexivity. }
  assert (Hfront : (R ++ "crew" :: N')%list ≠ []) by (destruct R; discriminate).
  assert (Hlast : List.last N "" = ln) by (rewrite HN; apply List.last_last).
  rewrite Hlast. intros H.
  destruct (session_canon.isRoleWord ln) eqn:Hword.
  { destruct (ParseSessionName_parts_role _ _ _ _ (append_sep_nonempty _ _ _)
                Hfront Hsplit Hword H) as [Hcrew _].
    by destruct Hcrew. }
  rewrite (ParseSessionName_parts _ _ _ (append_sep_nonempty _ _ _) Hfront Hsplit) in H.
  destruct (isRoleWord_false ln Hword) as (E1 & E2 & E3 & E4).
  rewrite E1, E2, E3, E4 in H. cbn zeta in H.
  replace ((R ++ "crew" :: N') ++ [ln])%list with (R ++ "crew" :: N)%list in H
    by (rewrite HN, <- List.app_assoc; reflexivity).
  destruct (findCrew (R ++ "crew" :: N)%list 0 _) as [k|] eqn:Hfound;
    [|discriminate H].
  injection H as Htown Hrig Hname.
  pose proof (findCrew_found _ _ _ _ Hfound) as [Hk _].
  pose proof (SplitByte_length "-" rig) as HR. fold R in HR.
  assert (Hlate : (List.length R <= k)%nat).
  { destruct (Nat.le_gt_cases (List.length R) k) as [Hle | Hlt]; [exact Hle|].
    exfalso.
    rewrite List.firstn_app in Hrig.
    replace (k - List.length R)%nat with 0%nat in Hrig by lia.
    simpl in Hrig. rewrite List.app_nil_r in Hrig.
    assert (Hpieces : SplitByte (Join (List.firstn k R) "-") "-" = List.firstn k R).
    { apply SplitByte_Join.
      - destruct R; [simpl in HR; lia|]. destruct k; [lia | discriminate].
      - apply Forall_take. apply SplitByte_pieces. }
    rewrite Hrig in Hpieces. fold R in Hpieces.
    apply (f_equal (@List.length string)) in Hpieces.
    rewrite List.firstn_length_le in Hpieces by lia. lia. }
  split; [by symmetry|]. split; [|reflexivity].
  apply (rigReadable_from_findCrew rig ("crew" :: N)
           (List.length (R ++ "crew" :: N)%list) (Some k)).
  - fold R. rewrite List.length_app. simpl. lia.
  - exact Hfound.
  - intros k' [= <-]. exact Hlate.
Qed.

Lemma readable_polecat (town rig name : string) :
  ParseSessionName (PolecatSessionName rig name) =
    Parsed (mkAgentIdentity RolePolecat town rig name) →
  town = "" ∧ session_canon.rigReadable rig = true ∧
  hasByte name "-" = false ∧ session_canon.isRoleWord name = false.
Proof.
  unfold PolecatSessionName.
  change ("-" +:+ name) with (String "-" name).
  set (R := SplitByte rig "-"). set (N := SplitByte name "-").
  destruct (List.exists_last (SplitByte_nonempty "-" name)) as [N' [ln HN]].
  fold N in HN.
  assert (Hsplit : SplitByte (rig +:+ String "-" name) "-"
                   = ((R ++ N') ++ [ln])%list).
  { rewrite SplitByte_app. fold R N. rewrite HN, <- List.app_assoc. reflexivity. }
  assert (Hfront : (R ++ N')%list ≠ []).
  { pose proof (SplitByte_nonempty "-" rig). fold R in H. destruct R; [congruence|].
    discriminate. }
  assert (Hln : hasByte ln "-" = false).
  { pose proof (SplitByte_pieces "-" name) as Hall. fold N in Hall. rewrite HN in Hall.
    apply Forall_app in Hall as [_ Hall]. by apply Forall_cons in Hall as [Hall _]. }
  intros H.
  destruct (session_canon.isRoleWord ln) eqn:Hword.
  { destruct (ParseSessionName_parts_role _ _ _ _ (append_sep_nonempty _ _ _)
                Hfront Hsplit Hword H) as [_ Hpolecat].
    by destruct Hpolecat. }
  rewrite (ParseSessionName_parts _ _ _ (append_sep_nonempty _ _ _) Hfront Hsplit) in H.
  destruct (isRoleWord_false ln Hword) as (E1 & E2 & E3 & E4).
  rewrite E1, E2, E3, E4 in H. cbn zeta in H.
  destruct (findCrew ((R ++ N') ++ [ln])%list 0 _) as [k|] eqn:Hfound;
    [discriminate H|].
  injection H as Htown Hrig Hname. subst ln.
  assert (HN' : N' = []).
  { unfold N in HN. rewrite (SplitByte_no_sep "-" name Hln) in HN.
    change [name] with ([] ++ [name])%list in HN at 1.
    apply List.app_inj_tail in HN as [HN _]. by symmetry. }
  subst N'. rewrite List.app_nil_r in Hfound.
  split; [by symmetry|]. split; [|split; [exact Hln | exact Hword]].
  apply (rigReadable_from_findCrew rig [name]
           (List.length (R ++ [name])%list) None).
  - fold R. rewrite List.length_app. simpl. lia.
  - exact Hfound.
  - discriminate.
Qed.

End session_facts.

(** C4 as stated fails: a polecat whose name has a hyphen comes back with
    part of its name in the rig; a crew member whose name ends in a role word
    comes back as that role; a polecat whose rig has a crew segment comes
    back as a crew member. *)
Lemma session_roundtrip_counterexample :
  let worker := session.mkAgentIdentity session.RolePolecat "" "gastown" "my-worker" in
  let watcher := session.mkAgentIdentity session.RoleCrew "" "gastown" "night-witness" in
  let toast := session.mkAgentIdentity session.RolePolecat "" "flight-crew-tools" "Toast" in
  session.ParseSessionName (session.SessionName worker) =
    session.Parsed (session.mkAgentIdentity session.RolePolecat "" "gastown-my" "worker") ∧
  session.ParseSessionName (session.SessionName worker) ≠ session.Parsed worker ∧
  session.ParseSessionName (session.SessionName watcher) =
    session.Parsed (session.mkAgentIdentity session.RoleWitness "" "gastown-crew-night" "") ∧
  session.ParseSessionName (session.SessionName watcher) ≠ session.Parsed watcher ∧
  session.ParseSessionName (session.SessionName toast) =
    session.Parsed (session.mkAgentIdentity session.RoleCrew "" "flight" "tools-Toast") ∧
  session.ParseSessionName (session.SessionName toast) ≠ session.Parsed toast.
Proof. vm_compute. repeat split; try reflexivity; discriminate. Qed.

(** C4, amended. Formatting an identity of any of the six roles as a
    session name and parsing that name gives the identity back exactly when
    the identity is in readable form: only the fields of its role are
    filled; for crew and polecat no segment of the rig after the first is
    "crew" and the last segment of the name is none of mayor, deacon,
    witness, refinery; a polecat name has no hyphen. Towns and rigs of the
    four singleton roles are unrestricted. *)
Theorem session_roundtrip (a : session.AgentIdentity) :
  session_canon.readable a = true ↔
  session.ParseSessionName (session.SessionName a) = session.Parsed a.
Proof.
  destruct a as [role town rig name].
  unfold session_canon.readable, session.SessionName. simpl.
  split.
  - destruct role; intros H;
      repeat match type of H with
        | (_ && _) = true => apply andb_true_iff in H as [H ?]
        end;
      repeat match goal with
        | E : String.eqb _ "" = true |- _ => apply String.eqb_eq in E; subst
        | E : negb _ = true |- _ => apply negb_true_iff in E
        end.
    + apply (session_facts.ParseSessionName_role_word town "mayor"). reflexivity.
    + apply (session_facts.ParseSessionName_role_word town "deacon"). reflexivity.
    + apply (session_facts.ParseSessionName_role_word rig "witness"). reflexivity.
    + apply (session_facts.ParseSessionName_role_word rig "refinery"). reflexivity.
    + apply session_facts.roundtrip_crew; assumption.
    + apply session_facts.roundtrip_polecat; assumption.
  - destruct role; intros H.
    + pose proof (session_facts.ParseSessionName_role_word town "mayor" eq_refl) as E.
      simpl in E. unfold session.MayorSessionName in H.
      rewrite E in H. injection H as <- <-. reflexivity.
    + pose proof (session_facts.ParseSessionName_role_word town "deacon" eq_refl) as E.
      simpl in E. unfold session.DeaconSessionName in H.
      rewrite E in H. injection H as <- <-. reflexivity.
    + pose proof (session_facts.ParseSessionName_role_word rig "witness" eq_refl) as E.
      simpl in E. unfold session.WitnessSessionName in H.
      rewrite E in H. injection H as <- <-. reflexivity.
    + pose proof (session_facts.ParseSessionName_role_word rig "refinery" eq_refl) as E.
      simpl in E. unfold session.RefinerySessionName in H.
      rewrite E in H. injection H as <- <-. reflexivity.
    + apply session_facts.readable_crew in H as (-> & -> & ->). reflexivity.
    + apply session_facts.readable_polecat in H as (-> & -> & -> & ->). reflexivity.
Qed.

(** A crew member of [TestAgentIdentity_SessionName]. *)
Lemma session_roundtrip_witness :
  session.ParseSessionName "gt-gastown-crew-max" =
  session.Parsed (session.mkAgentIdentity session.RoleCrew "" "gastown" "max").
Proof.
  apply (proj1 (session_roundtrip
                  (session.mkAgentIdentity session.RoleCrew "" "gastown" "max"))).
  reflexivity.
Defined.

(** The sessions of [TestParseSessionName_RoundTrip], from the identity
    side; the empty town of [TestMayorSessionName]; a polecat called crew. *)
Example session_roundtrip_samples :
  Forall (fun a => session_canon.readable a = true ∧
                   session.ParseSessionName (session.SessionName a) = session.Parsed a)
    [session.mkAgentIdentity session.RoleMayor "ai" "" "";
     session.mkAgentIdentity session.RoleMayor "" "" "";
     session.mkAgentIdentity session.RoleDeacon "my-town" "" "";
     session.mkAgentIdentity session.RoleWitness "" "gastown" "";
     session.mkAgentIdentity session.RoleRefinery "" "foo-bar" "";
     session.mkAgentIdentity session.RoleCrew "" "gastown" "my-worker";
     session.mkAgentIdentity session.RolePolecat "" "foo-bar" "Toast";
     session.mkAgentIdentity session.RolePolecat "" "gastown" "crew"].
Proof. repeat constructor; vm_compute; reflexivity. Qed.

(** ** Lifecycle request processor *)

Section LifecycleFacts.

Variable d : Env.











End LifecycleFacts.

Section ProcessingFacts.

Variable d : Env.













End ProcessingFacts.




(** ** Staleness gate *)




(** ** Precondition gate *)

Section GateFacts.

Variable d : Env.






End GateFacts.




(** * Further properties *)

(** ** Text helpers *)

Lemma append_assoc_string (a b c : string) : (a +:+ b) +:+ c = a +:+ (b +:+ c).
Proof.
  induction a as [|x a IH]; [reflexivity|].
  change (String x ((a +:+ b) +:+ c) = String x (a +:+ (b +:+ c))).
  by rewrite IH.
Qed.

Lemma append_empty_r (a : string) : a +:+ "" = a.
Proof.
  induction a as [|x a IH]; [reflexivity|].
  change (String x (a +:+ "") = String x a). by rewrite IH.
Qed.

Lemma from_zero (s : string) : from 0 s = s.
Proof. unfold from. rewrite Nat.sub_0_r. apply substring_whole. Qed.

Lemma from_succ (n : nat) (a : ascii) (s : string) : from (S n) (String a s) = from n s.
Proof. reflexivity. Qed.

(** A text with a given prefix is the prefix followed by the rest. *)
Lemma prefix_split (p s : string) :
  String.prefix p s = true → s = p +:+ from (String.length p) s.
Proof.
  revert s. induction p as [|a p IH]; intros s H.
  - simpl. symmetry. apply from_zero.
  - destruct s as [|b s]; [discriminate|].
    simpl in H. destruct (ascii_dec a b) as [->|]; [|discriminate].
    simpl String.length. rewrite from_succ.
    change (String b s = String b (p +:+ from (String.length p) s)).
    f_equal. by apply IH.
Qed.

Lemma Join_app (l k : list string) (sep : string) :
  l ≠ [] → k ≠ [] →
  Join (l ++ k)%list sep = Join l sep +:+ sep +:+ Join k sep.
Proof.
  intros Hl Hk. induction l as [|p l IH]; [congruence|].
  destruct l as [|q l].
  - destruct k; [congruence | reflexivity].
  - change (Join ((p :: q :: l) ++ k)%list sep)
      with (p +:+ sep +:+ Join ((q :: l) ++ k)%list sep).
    rewrite IH by discriminate.
    change (Join (p :: q :: l) sep) with (p +:+ sep +:+ Join (q :: l) sep).
    rewrite !append_assoc_string. reflexivity.
Qed.

Lemma hasByte_SplitByte_length (c : ascii) (s : string) :
  hasByte s c = true → (2 <= List.length (SplitByte s c))%nat.
Proof.
  induction s as [|a s IH]; simpl; [discriminate|].
  pose proof (SplitByte_length c s) as Hlen.
  destruct (Ascii.eqb a c); simpl.
  - intros _. lia.
  - intros H. specialize (IH H).
    destruct (SplitByte s c); simpl in *; lia.
Qed.

(** ** Session names, from the name side *)

Module session_names.
Import session.

(** Where the crew loop stops there is the marker, strictly inside. *)
Lemma findCrew_spec (parts : list string) (i n k : nat) :
  findCrew parts i n = Some k →
  ∃ j : nat, k = (i + j)%nat ∧ nth_error parts j = Some "crew" ∧
             (0 < k)%nat ∧ (k < n - 1)%nat.
Proof.
  revert i. induction parts as [|p parts IH]; intros i; simpl; [discriminate|].
  destruct (String.eqb p "crew" && (0 <? i)%nat && (i <? n - 1)%nat) eqn:E.
  - intros [= <-]. apply andb_true_iff in E as [E Hn].
    apply andb_true_iff in E as [Hp Hi].
    apply String.eqb_eq in Hp. apply Nat.ltb_lt in Hi, Hn.
    exists 0%nat. subst p. repeat split; [lia | lia | lia].
  - intros H. destruct (IH (S i) H) as (j & -> & Hj & Hpos & Hlt).
    exists (S j). repeat split; [lia | exact Hj | lia | lia].
Qed.

(** How a parsed name decomposes. *)
Lemma ParseSessionName_inv (s : string) (a : AgentIdentity) :
  ParseSessionName s = Parsed a →
  ∃ (x : string) (front : list string) (lastPart : string),
    s = Prefix +:+ x ∧ x ≠ "" ∧ front ≠ [] ∧
    SplitByte x "-" = (front ++ [lastPart])%list.
Proof.
  intros H.
  assert (Hpre : HasPrefix s Prefix = true).
  { unfold ParseSessionName in H. destruct (HasPrefix s Prefix); [reflexivity|].
    discriminate H. }
  pose proof (prefix_split Prefix s Hpre) as Hs.
  set (x := from (String.length Prefix) s) in Hs.
  assert (Hx : x ≠ "").
  { intros Hx. rewrite Hx in Hs. rewrite Hs in H. vm_compute in H. discriminate H. }
  rewrite Hs in H. rewrite (session_facts.ParseSessionName_prefixed x Hx) in H.
  cbn zeta in H.
  destruct (List.length (SplitByte x "-") <? 2)%nat eqn:Hn; [discriminate H|].
  apply Nat.ltb_ge in Hn.
  destruct (List.exists_last (SplitByte_nonempty "-" x)) as [front [lastPart Hsplit]].
  exists x, front, lastPart. repeat split; try assumption.
  intros ->. rewrite Hsplit in Hn. simpl in Hn. lia.
Qed.


(** A hyphen after the prefix is all the parser asks for. *)
Lemma ParseSessionName_hyphen (x : string) :
  hasByte x "-" = true → ∃ a : AgentIdentity, ParseSessionName (Prefix +:+ x) = Parsed a.
Proof.
  intros Hx.
  assert (Hne : x ≠ "") by (intros ->; discriminate).
  rewrite (session_facts.ParseSessionName_prefixed x Hne). cbn zeta.
  pose proof (hasByte_SplitByte_length "-" x Hx) as Hlen.
  replace (List.length (SplitByte x "-") <? 2)%nat with false
    by (symmetry; apply Nat.ltb_ge; lia).
  repeat match goal with
    | |- context [if ?b then _ else _] => destruct b
    | |- context [match ?o with Some _ => _ | None => _ end] => destruct o
    end; eexists; reflexivity.
Qed.

Lemma last_skipn {A : Type} (l : list A) (k : nat) (dflt : A) :
  (k < List.length l)%nat → List.last (List.skipn k l) dflt = List.last l dflt.
Proof.
  intros Hk. rewrite <- (List.firstn_skipn k l) at 2.
  symmetry. apply last_app_nonempty.
  intros Hnil. apply (f_equal (@List.length A)) in Hnil.
  rewrite List.length_skipn in Hnil. simpl in Hnil. lia.
Qed.

End session_names.

(** X1. Whatever [ParseSessionName] accepts, formatting the identity it
    returns gives the session name back, and the identity is in readable
    form: the parser adds nothing that [SessionName] would lose. *)
Theorem session_parse_then_format (s : string) (a : session.AgentIdentity) :
  session.ParseSessionName s = session.Parsed a →
  session.SessionName a = s ∧ session_canon.readable a = true.
Proof.
  intros H. pose proof H as Hparsed.
  destruct (session_names.ParseSessionName_inv s a H)
    as (x & front & lastPart & -> & Hx & Hfront & Hsplit).
  rewrite (session_facts.ParseSessionName_parts x front lastPart Hx Hfront Hsplit) in H.
  assert (Hjoin : x = Join front "-" +:+ "-" +:+ lastPart).
  { rewrite <- (Join_SplitByte "-" x) at 1. rewrite Hsplit.
    rewrite Join_app by (assumption || discriminate). reflexivity. }
  unfold session.SessionName. revert H.
  destruct (String.eqb_spec lastPart "mayor") as [E|_];
    [intros [= <-]; simpl; rewrite Hjoin, E; split; reflexivity|].
  destruct (String.eqb_spec lastPart "deacon") as [E|_];
    [intros [= <-]; simpl; rewrite Hjoin, E; split; reflexivity|].
  destruct (String.eqb_spec lastPart "witness") as [E|_];
    [intros [= <-]; simpl; rewrite Hjoin, E; split; reflexivity|].
  destruct (String.eqb_spec lastPart "refinery") as [E|_];
    [intros [= <-]; simpl; rewrite Hjoin, E; split; reflexivity|].
  cbn zeta.
  destruct (session.findCrew (front ++ [lastPart])%list 0 _) as [k|] eqn:Hfound.
  - intros [= <-].
    destruct (session_names.findCrew_spec _ _ _ _ Hfound) as (j & Hk & Hnth & Hpos & Hlt).
    simpl in Hk. subst j.
    pose proof (List.firstn_skipn_middle _ _ Hnth) as Hmid.
    assert (Hfirst : List.firstn k (front ++ [lastPart])%list ≠ []).
    { intros Hnil. apply (f_equal (@List.length string)) in Hnil.
      rewrite List.length_firstn in Hnil. simpl in Hnil. lia. }
    assert (Hrest : List.skipn (S k) (front ++ [lastPart])%list ≠ []).
    { intros Hnil. apply (f_equal (@List.length string)) in Hnil.
      rewrite List.length_skipn in Hnil. simpl in Hnil. lia. }
    replace (k + 1)%nat with (S k) in * by lia.
    remember (List.firstn k (front ++ [lastPart])%list) as rigParts.
    remember (List.skipn (S k) (front ++ [lastPart])%list) as nameParts.
    assert (Hx' : x = Join rigParts "-" +:+ "-" +:+ "crew" +:+ "-" +:+ Join nameParts "-").
    { rewrite <- (Join_SplitByte "-" x) at 1. rewrite Hsplit, <- Hmid.
      rewrite Join_app by (assumption || discriminate).
      change ("crew" :: nameParts) with (["crew"] ++ nameParts)%list.
      rewrite Join_app by (assumption || discriminate).
      reflexivity. }
    assert (Hname : session.CrewSessionName (Join rigParts "-") (Join nameParts "-")
                    = session.Prefix +:+ x).
    { unfold session.CrewSessionName. rewrite Hx'. reflexivity. }
    split; [exact Hname|].
    rewrite <- Hname in Hparsed.
    apply session_facts.readable_crew in Hparsed as (_ & Hrig & Hword).
    unfold session_canon.readable.
    cbv beta iota delta [session.Role_ session.Town session.Rig session.Name].
    rewrite Hrig, Hword. reflexivity.
  - intros [= <-].
    assert (Hname : session.PolecatSessionName (Join front "-") lastPart
                    = session.Prefix +:+ x).
    { unfold session.PolecatSessionName. rewrite Hjoin. reflexivity. }
    split; [exact Hname|].
    rewrite <- Hname in Hparsed.
    apply session_facts.readable_polecat in Hparsed as (_ & Hrig & Hhyphen & Hword).
    unfold session_canon.readable.
    cbv beta iota delta [session.Role_ session.Town session.Rig session.Name].
    rewrite Hrig, Hhyphen, Hword. reflexivity.
Qed.

(** The sessions of [TestParseSessionName_RoundTrip]. *)
Lemma session_parse_then_format_witness :
  session.SessionName
    (session.mkAgentIdentity session.RoleRefinery "" "foo-bar" "") = "gt-foo-bar-refinery" ∧
  session_canon.readable
    (session.mkAgentIdentity session.RoleRefinery "" "foo-bar" "") = true.
Proof.
  apply (session_parse_then_format "gt-foo-bar-refinery"). reflexivity.
Defined.

(** X2. What [ParseSessionName] accepts and how it rejects: a name is
    parsed exactly when it starts with the prefix and has a hyphen after it;
    without the prefix the error is the missing prefix, the bare prefix is
    empty after the prefix, and a single segment after the prefix is too
    few segments. *)
Theorem ParseSessionName_verdict (s : string) :
  match session.ParseSessionName s with
  | session.Parsed _ =>
      HasPrefix s session.Prefix = true ∧
      hasByte (TrimPrefix s session.Prefix) "-" = true
  | session.Invalid session.MissingPrefix =>
      HasPrefix s session.Prefix = false
  | session.Invalid session.EmptyAfterPrefix =>
      s = session.Prefix
  | session.Invalid session.ExpectedTwoSegments =>
      HasPrefix s session.Prefix = true ∧ s ≠ session.Prefix ∧
      hasByte (TrimPrefix s session.Prefix) "-" = false
  end.
Proof.
  destruct (HasPrefix s session.Prefix) eqn:Hpre.
  2: { unfold session.ParseSessionName. rewrite Hpre. reflexivity. }
  pose proof (prefix_split session.Prefix s Hpre) as Hs.
  assert (Htrim : TrimPrefix s session.Prefix = from (String.length session.Prefix) s).
  { unfold TrimPrefix. by rewrite Hpre. }
  rewrite Htrim. clear Htrim. revert Hs.
  generalize (from (String.length session.Prefix) s). intros x Hs. subst s.
  destruct (String.eqb_spec x "") as [Hx | Hx].
  { rewrite Hx. reflexivity. }
  destruct (hasByte x "-") eqn:Hhyphen.
  - destruct (session_names.ParseSessionName_hyphen x Hhyphen) as [a Ha].
    rewrite Ha. by split.
  - rewrite (session_facts.ParseSessionName_prefixed x Hx). cbn zeta.
    rewrite (SplitByte_no_sep "-" x Hhyphen). simpl.
    split; [reflexivity|]. split; [|reflexivity]. intros Heq. apply Hx.
    change session.Prefix with (session.Prefix +:+ "") in Heq at 2.
    by apply String.app_inj in Heq.
Qed.

(** The error cases of [TestParseSessionName]. *)
Example ParseSessionName_errors :
  session.ParseSessionName "gastown-witness" = session.Invalid session.MissingPrefix ∧
  session.ParseSessionName "gt-" = session.Invalid session.EmptyAfterPrefix ∧
  session.ParseSessionName "gt-x" = session.Invalid session.ExpectedTwoSegments.
Proof. repeat split; vm_compute; reflexivity. Qed.


(** ** Health evaluator, read backwards *)

(** X4. The four states, from the result back to the facts: stuck is
    reported exactly for a live session whose recorded heartbeat is older
    than the threshold; the two respawn states only for a session probed
    dead (waiting only with a recorded death); so a live session is never
    reported for respawn and a dead or unprobeable one never as stuck. *)
Theorem checkAgentHealth_status_table (d : Env) (tr : list Event)
    (config : AgentHealthConfig) :
  let result := checkAgentHealth d tr config in
  let last := getLastPatrolCompleted d tr (Role config) (RigName config) in
  (Status result = StatusStuck ↔
     tmux_HasSession d tr (SessionName config) = Ok true ∧
     IsZero last = false ∧
     cfgStuckThreshold config < Since (clock d tr) last) ∧
  (Status result = StatusNeedsRespawn →
     tmux_HasSession d tr (SessionName config) = Ok false) ∧
  (Status result = StatusWaitingRespawn →
     tmux_HasSession d tr (SessionName config) = Ok false ∧
     IsZero (LastDeath config) = false ∧
     Since (clock d tr) (LastDeath config) < RespawnDelay config) ∧
  (SessionAlive result = true →
     tmux_HasSession d tr (SessionName config) = Ok true).
Proof.
  intros result last. subst result. unfold checkAgentHealth, respawnDelayElapsed.
  fold last.
  destruct (tmux_HasSession d tr (SessionName config)) as [[|]|err]; cbn zeta;
    simpl negb; simpl andb.
  - destruct (IsZero last) eqn:Hz; simpl.
    + destruct (cfgStuckThreshold config <? 0); simpl;
        repeat split; try discriminate; try tauto;
        intros (_ & Hfalse & _); discriminate.
    + destruct (Z.ltb_spec (cfgStuckThreshold config) (Since (clock d tr) last));
        simpl.
      * repeat split; try discriminate; auto.
      * destruct (0 <? Since (clock d tr) last); simpl;
          repeat split; try discriminate; try tauto;
          intros (_ & _ & Hlt); lia.
  - destruct (IsZero (LastDeath config)) eqn:Hd; simpl.
    + repeat split; try discriminate; try tauto;
        intros (Hfalse & _); discriminate.
    + destruct (Z.leb_spec (RespawnDelay config) (Since (clock d tr) (LastDeath config)));
        simpl; repeat split; try discriminate; try tauto; try lia;
        intros (Hfalse & _); discriminate.
  - simpl. repeat split; try discriminate; try tauto;
      intros (Hfalse & _); discriminate.
Qed.

(** X5. Agents without a patrol bead have no heartbeat and are never
    classified as stuck: every role other than deacon, witness and refinery,
    and a witness or refinery without a rig. The same holds when the bead
    cannot be read. *)
Theorem checkAgentHealth_never_stuck_without_heartbeat (d : Env) (tr : list Event)
    (config : AgentHealthConfig) :
  (Role config ≠ "deacon" ∧ (RigName config = "" ∨
     (Role config ≠ "witness" ∧ Role config ≠ "refinery"))) ∨
  (∃ err, bd_agent_bead_info d tr
            (buildPatrolAgentBeadID (Role config) (RigName config)) = Err err) ∨
  bd_show_labels d tr (buildPatrolAgentBeadID (Role config) (RigName config)) = None →
  getLastPatrolCompleted d tr (Role config) (RigName config) = zeroTime ∧
  HeartbeatAge (checkAgentHealth d tr config) = 0 ∧
  Status (checkAgentHealth d tr config) ≠ StatusStuck.
Proof.
  intros Hsource.
  assert (Hzero : getLastPatrolCompleted d tr (Role config) (RigName config) = zeroTime).
  { unfold getLastPatrolCompleted.
    destruct Hsource as [[Hdeacon Hrest] | [[err Herr] | Hlabels]].
    - assert (Hid : buildPatrolAgentBeadID (Role config) (RigName config) = "").
      { unfold buildPatrolAgentBeadID.
        destruct (String.eqb_spec (Role config) "deacon"); [congruence|].
        destruct Hrest as [-> | [Hw Hr]].
        - simpl.
          destruct (String.eqb (Role config) "witness"); [reflexivity|].
          destruct (String.eqb (Role config) "refinery"); reflexivity.
        - destruct (String.eqb_spec (Role config) "witness"); [congruence|].
          destruct (String.eqb_spec (Role config) "refinery"); [congruence|].
          reflexivity. }
      rewrite Hid. reflexivity.
    - rewrite Herr. destruct (String.eqb _ ""); reflexivity.
    - unfold parseLastActivityFromBead. rewrite Hlabels.
      destruct (String.eqb _ ""); [reflexivity|].
      destruct (bd_agent_bead_info d tr _); reflexivity. }
  split; [exact Hzero|].
  unfold checkAgentHealth. rewrite Hzero.
  destruct (tmux_HasSession d tr (SessionName config)) as [alive|err]; simpl;
    [|split; [reflexivity | discriminate]].
  repeat match goal with |- context [if ?b then _ else _] => destruct b end;
    simpl; split; try reflexivity; discriminate.
Qed.

(** A crew member (no patrol bead) with a live session is healthy whatever
    the thresholds. *)
Lemma checkAgentHealth_never_stuck_without_heartbeat_witness :
  let config := mkAgentHealthConfig "crew" "gastown" "gt-gastown-crew-max" 0 0 0 in
  getLastPatrolCompleted (Examples.witnessEnv (Ok true)) [] "crew" "gastown" = zeroTime ∧
  HeartbeatAge (checkAgentHealth (Examples.witnessEnv (Ok true)) [] config) = 0 ∧
  Status (checkAgentHealth (Examples.witnessEnv (Ok true)) [] config) ≠ StatusStuck.
Proof.
  intros config.
  apply (checkAgentHealth_never_stuck_without_heartbeat
           (Examples.witnessEnv (Ok true)) [] config).
  left. split; [discriminate|]. right. split; discriminate.
Defined.

(** X6. Of the labels of a bead the first activity label decides the
    heartbeat: labels before it are passed over, labels after it are never
    looked at, and when its timestamp does not parse the heartbeat is the
    zero time even if a later label would parse. Without an activity label
    the heartbeat is the zero time. *)
Theorem scanLastActivity_first_label (d : Env) (labels : list string) :
  (Forall (fun l => isActivityLabel l = false) labels →
     scanLastActivity d labels = zeroTime) ∧
  (∀ (before after : list string) (label : string),
      labels = (before ++ label :: after)%list →
      Forall (fun l => isActivityLabel l = false) before →
      isActivityLabel label = true →
      scanLastActivity d labels =
        match time_Parse_RFC3339 d (from 14 label) with
        | Some t => t
        | None => zeroTime
        end).
Proof.
  assert (Hskip : ∀ before rest,
            Forall (fun l => isActivityLabel l = false) before →
            scanLastActivity d (before ++ rest)%list = scanLastActivity d rest).
  { induction before as [|l before IH]; intros rest Hall; [reflexivity|].
    apply Forall_cons in Hall as [Hl Hall].
    simpl. unfold isActivityLabel in Hl. rewrite Hl. by apply IH. }
  split.
  - intros Hall. rewrite <- (List.app_nil_r labels). by rewrite Hskip.
  - intros before after label -> Hall Hlabel.
    rewrite (Hskip before _ Hall). simpl.
    unfold isActivityLabel in Hlabel. rewrite Hlabel. reflexivity.
Qed.

(** A malformed first activity label hides a well-formed later one; the bare
    key without a value is no activity label. *)
Lemma scanLastActivity_first_label_witness :
  scanLastActivity (Examples.witnessEnv (Ok true))
    ["gt:agent"; "last_activity:"; "last_activity:yesterday";
     "last_activity:2025-12-30T08:00:00Z"] = zeroTime.
Proof.
  destruct (scanLastActivity_first_label (Examples.witnessEnv (Ok true))
              ["gt:agent"; "last_activity:"; "last_activity:yesterday";
               "last_activity:2025-12-30T08:00:00Z"]) as [_ Hfirst].
  apply (Hfirst ["gt:agent"; "last_activity:"] ["last_activity:2025-12-30T08:00:00Z"]
           "last_activity:yesterday").
  - reflexivity.
  - repeat constructor.
  - reflexivity.
Defined.

(** ** The patrol health pass *)

Section PatrolFacts.

Variable d : Env.

Lemma addsOnly_refl (kind : Event → bool) (w : World) : addsOnly kind w w.
Proof.
  repeat split. exists []. split; [symmetry; apply List.app_nil_r | reflexivity].
Qed.

Lemma addsOnly_trans (kind : Event → bool) (w1 w2 w3 : World) :
  addsOnly kind w1 w2 → addsOnly kind w2 w3 → addsOnly kind w1 w3.
Proof.
  intros (Hi1 & Hf1 & e1 & Ht1 & Hk1) (Hi2 & Hf2 & e2 & Ht2 & Hk2).
  split; [congruence|]. split; [congruence|].
  exists (e1 ++ e2)%list. split.
  - rewrite Ht2, Ht1. symmetry. apply List.app_assoc.
  - rewrite List.forallb_app, Hk1, Hk2. reflexivity.
Qed.

Lemma handleStuckAgent_addsOnly (config : AgentHealthConfig)
    (result : AgentHealthResult) (w : World) :
  addsOnly isRemediation w (handleStuckAgent d config result w).
Proof.
  unfold handleStuckAgent.
  destruct (CriticalStuckThreshold <? HeartbeatAge result);
    (split; [reflexivity|]; split; [reflexivity|]);
    eexists; (split; [simpl; rewrite <- List.app_assoc; reflexivity | reflexivity]).
Qed.

Lemma actOnHealth_addsOnly (config : AgentHealthConfig) (w : World) :
  addsOnly isRemediation w (actOnHealth d config w).
Proof.
  unfold actOnHealth.
  destruct (Status (checkAgentHealth d (trace w) config));
    try apply addsOnly_refl. apply handleStuckAgent_addsOnly.
Qed.

Lemma actOnHealth_fold_addsOnly (mk : string → AgentHealthConfig)
    (rigs : list string) (w : World) :
  addsOnly isRemediation w
    (fold_left (fun w rigName => actOnHealth d (mk rigName) w) rigs w).
Proof.
  revert w. induction rigs as [|rig rigs IH]; intros w; simpl.
  - apply addsOnly_refl.
  - eapply addsOnly_trans; [apply actOnHealth_addsOnly | apply IH].
Qed.

(** A configuration without a recorded death is never kept waiting. *)
Lemma checkAgentHealth_no_death (tr : list Event) (config : AgentHealthConfig) :
  LastDeath config = zeroTime →
  Status (checkAgentHealth d tr config) ≠ StatusWaitingRespawn ∧
  (tmux_HasSession d tr (SessionName config) = Ok false →
     Status (checkAgentHealth d tr config) = StatusNeedsRespawn).
Proof.
  intros Hdeath. unfold checkAgentHealth, respawnDelayElapsed. rewrite Hdeath.
  destruct (tmux_HasSession d tr (SessionName config)) as [[|]|err]; simpl.
  - split; [|discriminate].
    repeat match goal with |- context [if ?b then _ else _] => destruct b end;
      discriminate.
  - split; [discriminate | reflexivity].
  - split; discriminate.
Qed.

End PatrolFacts.

(** X7. The patrol health pass only ever remediates: it leaves the inbox
    and the agents' state files as they are, and every call it makes is a
    feed record, a kill of a stuck session or a nudge; it never creates or
    restarts a session. With the three patrols disabled it does nothing. *)
Theorem checkPatrolAgentHealth_only_remediates (d : Env) (p : PatrolSetup) (w : World) :
  addsOnly isRemediation w (checkPatrolAgentHealth d p w) ∧
  (IsPatrolEnabled (patrolConfig p) "deacon" = false →
   IsPatrolEnabled (patrolConfig p) "witness" = false →
   IsPatrolEnabled (patrolConfig p) "refinery" = false →
   checkPatrolAgentHealth d p w = w).
Proof.
  unfold checkPatrolAgentHealth. split.
  - set (w1 := if IsPatrolEnabled (patrolConfig p) "deacon" then _ else w).
    set (w2 := if IsPatrolEnabled (patrolConfig p) "witness" then _ else w1).
    assert (H1 : addsOnly isRemediation w w1).
    { unfold w1. destruct (IsPatrolEnabled (patrolConfig p) "deacon");
        [apply actOnHealth_addsOnly | apply addsOnly_refl]. }
    assert (H2 : addsOnly isRemediation w1 w2).
    { unfold w2. destruct (IsPatrolEnabled (patrolConfig p) "witness");
        [apply actOnHealth_fold_addsOnly | apply addsOnly_refl]. }
    eapply addsOnly_trans; [exact H1|]. eapply addsOnly_trans; [exact H2|].
    destruct (IsPatrolEnabled (patrolConfig p) "refinery");
      [apply actOnHealth_fold_addsOnly | apply addsOnly_refl].
  - intros -> -> ->. reflexivity.
Qed.

(** All patrols switched off in [mayor/daemon.json]. *)
Lemma checkPatrolAgentHealth_only_remediates_witness :
  let off := Some (mkPatrolConfig false "" "") in
  let p := mkPatrolSetup
             (Some (mkDaemonPatrolConfig "daemon-patrol-config" 1 None
                      (Some (mkPatrolsConfig off off off))))
             ["gastown"] "gt-ai-deacon" in
  checkPatrolAgentHealth (Examples.witnessEnv (Ok true)) p Examples.emptyWorld
  = Examples.emptyWorld.
Proof.
  intros off p.
  apply (checkPatrolAgentHealth_only_remediates (Examples.witnessEnv (Ok true)) p);
    reflexivity.
Defined.

(** Without a patrol configuration all three patrols run: with every
    heartbeat twenty minutes old, past the default fifteen, the deacon and
    the witness and refinery of the one rig are nudged, in this order. *)
Example checkPatrolAgentHealth_run :
  trace (checkPatrolAgentHealth (Examples.witnessEnv (Ok true))
           (mkPatrolSetup None ["gastown"] "gt-ai-deacon") Examples.emptyWorld) =
  [EvLogFeedAgentStuck "deacon" "" "gt-ai-deacon" "20m0s";
   EvNudgeSession "gt-ai-deacon"
     "HEALTH_CHECK: heartbeat stale (20m0s old), please respond to confirm responsiveness";
   EvLogFeedAgentStuck "witness" "gastown" "gt-gastown-witness" "20m0s";
   EvNudgeSession "gt-gastown-witness"
     "HEALTH_CHECK: heartbeat stale (20m0s old), please respond to confirm responsiveness";
   EvLogFeedAgentStuck "refinery" "gastown" "gt-gastown-refinery" "20m0s";
   EvNudgeSession "gt-gastown-refinery"
     "HEALTH_CHECK: heartbeat stale (20m0s old), please respond to confirm responsiveness"].
Proof. vm_compute. reflexivity. Qed.

(** X8. The three patrol checks never enforce the respawn delay: they build
    their configuration without a recorded death, so a dead deacon, witness
    or refinery is always reported as needing respawn and never as waiting
    for it. *)
Theorem patrol_checks_never_wait (d : Env) (tr : list Event) (p : PatrolSetup)
    (config : AgentHealthConfig) :
  In config (deaconHealthConfig (deaconSessionName p)
             :: List.map witnessHealthConfig (knownRigs p)
             ++ List.map refineryHealthConfig (knownRigs p))%list →
  cfgStuckThreshold config = DefaultStuckThreshold ∧
  Status (checkAgentHealth d tr config) ≠ StatusWaitingRespawn ∧
  (tmux_HasSession d tr (SessionName config) = Ok false →
     Status (checkAgentHealth d tr config) = StatusNeedsRespawn).
Proof.
  intros Hin.
  assert (Hshape : LastDeath config = zeroTime ∧
                   cfgStuckThreshold config = DefaultStuckThreshold).
  { destruct Hin as [<- | Hin]; [by split|].
    apply List.in_app_or in Hin as [Hin | Hin];
      apply List.in_map_iff in Hin as (rig & <- & _); by split. }
  destruct Hshape as [Hdeath Hthreshold].
  split; [exact Hthreshold|]. by apply checkAgentHealth_no_death.
Qed.

(** A dead witness, whenever it died. *)
Lemma patrol_checks_never_wait_witness :
  let d := Examples.witnessEnv (Ok false) in
  let config := witnessHealthConfig "gastown" in
  cfgStuckThreshold config = DefaultStuckThreshold ∧
  Status (checkAgentHealth d [] config) ≠ StatusWaitingRespawn ∧
  (tmux_HasSession d [] (SessionName config) = Ok false →
     Status (checkAgentHealth d [] config) = StatusNeedsRespawn).
Proof.
  intros d config.
  apply (patrol_checks_never_wait d [] (mkPatrolSetup None ["gastown"] "gt-ai-deacon")).
  right. left. reflexivity.
Defined.

(** X9. [IsPatrolEnabled] answers no only for one of the three patrols
    whose entry is present in the configuration and switched off; a missing
    configuration, a missing patrols section, a missing entry and an unknown
    patrol name all count as enabled. *)
Theorem IsPatrolEnabled_false_iff (config : option DaemonPatrolConfig) (patrol : string) :
  IsPatrolEnabled config patrol = false ↔
  ∃ (c : DaemonPatrolConfig) (ps : PatrolsConfig) (pc : PatrolConfig),
    config = Some c ∧ Patrols c = Some ps ∧ Enabled pc = false ∧
    ((patrol = "refinery" ∧ Refinery ps = Some pc) ∨
     (patrol = "witness" ∧ Witness ps = Some pc) ∨
     (patrol = "deacon" ∧ Deacon ps = Some pc)).
Proof.
  unfold IsPatrolEnabled. split.
  - destruct config as [c|]; [|discriminate].
    destruct (Patrols c) as [ps|] eqn:Hps; [|discriminate].
    destruct (String.eqb_spec patrol "refinery") as [->|_].
    { destruct (Refinery ps) as [pc|] eqn:E; [|discriminate].
      intros H. exists c, ps, pc. auto 10. }
    destruct (String.eqb_spec patrol "witness") as [->|_].
    { destruct (Witness ps) as [pc|] eqn:E; [|discriminate].
      intros H. exists c, ps, pc. auto 10. }
    destruct (String.eqb_spec patrol "deacon") as [->|_]; [|discriminate].
    destruct (Deacon ps) as [pc|] eqn:E; [|discriminate].
    intros H. exists c, ps, pc. auto 10.
  - intros (c & ps & pc & -> & -> & Hoff & [[-> ->] | [[-> ->] | [-> ->]]]);
      simpl; exact Hoff.
Qed.

(** ** Respawn policy and bookkeeping *)

(** X10. Every role's policy, configured or default, is sane: the delay is
    between zero and five minutes, the stuck threshold between five and
    fifteen minutes and so always below the critical threshold at which a
    stuck agent is killed, and the trigger is one of the two in use. *)
Theorem GetRespawnConfig_bounds (role : string) :
  let cfg := GetRespawnConfig role in
  0 <= Delay cfg <= 5 * Minute ∧
  5 * Minute <= StuckThreshold cfg <= 15 * Minute ∧
  StuckThreshold cfg < CriticalStuckThreshold ∧
  (Trigger cfg = "always" ∨ Trigger cfg = "mq-not-empty").
Proof.
  assert (Hcase : role = "deacon" ∨ role = "witness" ∨ role = "refinery" ∨
                  DefaultRespawnConfigs !! role = None).
  { destruct (String.eqb_spec role "deacon"); [tauto|].
    destruct (String.eqb_spec role "witness"); [tauto|].
    destruct (String.eqb_spec role "refinery"); [tauto|].
    right; right; right. unfold DefaultRespawnConfigs.
    rewrite !lookup_insert_ne by congruence. apply lookup_empty. }
  destruct Hcase as [-> | [-> | [-> | Hnone]]].
  - vm_compute. repeat split; auto; discriminate.
  - vm_compute. repeat split; auto; discriminate.
  - vm_compute. repeat split; auto; discriminate.
  - unfold GetRespawnConfig. rewrite Hnone. vm_compute.
    repeat split; auto; discriminate.
Qed.

Lemma GetAgentState_entry (s : State) (agentID : string) :
  (GetAgentState s agentID).1 = agentEntry s agentID ∧
  (GetAgentState s agentID).2 = setAgents s (<[agentID := agentEntry s agentID]> (Agents s)).
Proof.
  unfold GetAgentState, agentEntry.
  destruct (Agents s !! agentID) as [a|] eqn:E; simpl; [|by split].
  split; [reflexivity|]. rewrite insert_id by exact E. by destruct s.
Qed.

Lemma ScheduleRespawn_insert (now : Time) (s : State)
    (agentID session role exitReason : string) :
  ScheduleRespawn now s agentID session role exitReason =
  setAgents s
    (<[agentID := mkAgentState session (LastPatrolCompleted (agentEntry s agentID))
                    (Some (Add now (Delay (GetRespawnConfig role)))) (Some now)
                    exitReason]> (Agents s)).
Proof.
  unfold ScheduleRespawn.
  destruct (GetAgentState_entry s agentID) as [H1 H2].
  destruct (GetAgentState s agentID) as [agent s1]. simpl in H1, H2. subst.
  unfold storeAgent, setAgents. simpl. by rewrite insert_insert_eq.
Qed.

Lemma ClearRespawn_insert (s : State) (agentID session : string) :
  ClearRespawn s agentID session =
  setAgents s
    (<[agentID := mkAgentState session (LastPatrolCompleted (agentEntry s agentID))
                    None None ""]> (Agents s)).
Proof.
  unfold ClearRespawn.
  destruct (GetAgentState_entry s agentID) as [H1 H2].
  destruct (GetAgentState s agentID) as [agent s1]. simpl in H1, H2. subst.
  unfold storeAgent, setAgents. simpl. by rewrite insert_insert_eq.
Qed.

Lemma UpdatePatrolCompleted_insert (now : Time) (s : State) (agentID : string) :
  UpdatePatrolCompleted now s agentID =
  setAgents s
    (<[agentID := mkAgentState (Session (agentEntry s agentID)) (Some now)
                    (RespawnScheduledAt (agentEntry s agentID))
                    (LastExitedAt (agentEntry s agentID))
                    (ExitReason (agentEntry s agentID))]> (Agents s)).
Proof.
  unfold UpdatePatrolCompleted.
  destruct (GetAgentState_entry s agentID) as [H1 H2].
  destruct (GetAgentState s agentID) as [agent s1]. simpl in H1, H2. subst.
  unfold storeAgent, setAgents. simpl. by rewrite insert_insert_eq.
Qed.

Lemma agentEntry_setAgents_insert (s : State) (m : gmap string AgentState)
    (agentID other : string) (a : AgentState) :
  agentEntry (setAgents s (<[agentID := a]> m)) other =
  if decide (agentID = other) then a else default emptyAgentState (m !! other).
Proof.
  unfold agentEntry. simpl. rewrite lookup_insert. by destruct (decide (agentID = other)).
Qed.

(** X11. Clearing a respawn undoes a scheduling completely: scheduling and
    then clearing leaves the state exactly as clearing alone would, with the
    session of the clearing, no schedule, no exit time, no exit reason, and
    the agent's last patrol completion kept. *)
Theorem ClearRespawn_after_ScheduleRespawn (now : Time) (s : State)
    (agentID session role exitReason restarted : string) :
  let scheduled := ScheduleRespawn now s agentID session role exitReason in
  ClearRespawn scheduled agentID restarted = ClearRespawn s agentID restarted ∧
  Agents (ClearRespawn scheduled agentID restarted) !! agentID =
    Some (mkAgentState restarted
            (LastPatrolCompleted (agentEntry s agentID))
            None None "").
Proof.
  intros scheduled. subst scheduled.
  rewrite ScheduleRespawn_insert, !ClearRespawn_insert.
  rewrite agentEntry_setAgents_insert. destruct (decide (agentID = agentID)); [|congruence].
  unfold setAgents. simpl. rewrite insert_insert_eq.
  split; [reflexivity|]. apply lookup_insert_eq.
Qed.

(** X12. Respawns scheduled for two different agents do not interfere: the
    state is the same whichever is scheduled first. *)
Theorem ScheduleRespawn_commute (now1 now2 : Time) (s : State)
    (agent1 session1 role1 reason1 agent2 session2 role2 reason2 : string) :
  agent1 ≠ agent2 →
  ScheduleRespawn now2 (ScheduleRespawn now1 s agent1 session1 role1 reason1)
    agent2 session2 role2 reason2 =
  ScheduleRespawn now1 (ScheduleRespawn now2 s agent2 session2 role2 reason2)
    agent1 session1 role1 reason1.
Proof.
  intros Hne. rewrite !ScheduleRespawn_insert, !agentEntry_setAgents_insert.
  destruct (decide (agent1 = agent2)); [congruence|].
  destruct (decide (agent2 = agent1)); [congruence|].
  unfold setAgents. simpl. f_equal. apply insert_insert_ne. congruence.
Qed.

Lemma ScheduleRespawn_commute_witness :
  let s := mkState true 1 0 0 0 ∅ in
  ScheduleRespawn 7 (ScheduleRespawn 5 s "deacon" "gt-deacon" "deacon" "crash")
    "gastown/witness" "gt-gastown-witness" "witness" "stuck" =
  ScheduleRespawn 5 (ScheduleRespawn 7 s "gastown/witness" "gt-gastown-witness"
                       "witness" "stuck")
    "deacon" "gt-deacon" "deacon" "crash".
Proof.
  intros s. apply (ScheduleRespawn_commute 5 7 s). discriminate.
Defined.

(** X13. Heartbeat bookkeeping and respawn bookkeeping of one agent are
    independent: recording a patrol completion and scheduling a respawn give
    the same state in either order, and the completion time recorded is the
    one found in the entry afterwards. *)
Theorem UpdatePatrolCompleted_ScheduleRespawn (completed now : Time) (s : State)
    (agentID session role exitReason : string) :
  ScheduleRespawn now (UpdatePatrolCompleted completed s agentID)
    agentID session role exitReason =
  UpdatePatrolCompleted completed
    (ScheduleRespawn now s agentID session role exitReason) agentID ∧
  Agents (ScheduleRespawn now (UpdatePatrolCompleted completed s agentID)
            agentID session role exitReason) !! agentID =
    Some (mkAgentState session (Some completed)
            (Some (Add now (Delay (GetRespawnConfig role)))) (Some now) exitReason).
Proof.
  rewrite ScheduleRespawn_insert, UpdatePatrolCompleted_insert.
  rewrite UpdatePatrolCompleted_insert, ScheduleRespawn_insert.
  rewrite !agentEntry_setAgents_insert.
  destruct (decide (agentID = agentID)); [|congruence].
  unfold setAgents. simpl. rewrite !insert_insert_eq.
  split; [reflexivity|]. apply lookup_insert_eq.
Qed.

(** X14. [GetAgentState] creates an entry at most once: a second call
    returns the same entry and leaves the state as the first call left it,
    no other agent's entry is touched, and exactly the asked-for agent is
    added to the known ones. *)
Theorem GetAgentState_idempotent (s : State) (agentID : string) :
  let first := GetAgentState s agentID in
  GetAgentState first.2 agentID = first ∧
  Agents first.2 !! agentID = Some first.1 ∧
  (∀ other : string, other ≠ agentID → Agents first.2 !! other = Agents s !! other) ∧
  dom (Agents first.2) = {[agentID]} ∪ dom (Agents s).
Proof.
  intros first. subst first. unfold GetAgentState.
  destruct (Agents s !! agentID) as [a|] eqn:E; simpl.
  - rewrite E. repeat split; try done.
    apply elem_of_dom_2 in E. set_solver.
  - rewrite lookup_insert_eq. repeat split.
    + intros other Hne. apply lookup_insert_ne. congruence.
    + apply dom_insert_L.
Qed.


(** ** The precondition check and the clearing of the flag *)


(** X15. The check passes exactly in two cases: the state file path cannot
    be determined, or the file can be read and shows the flag of this very
    action as the boolean true. A flag staged for another action, a string
    or number in its place, or an unreadable file all fail it. *)
Theorem verifyAgentRequestingState_passes_iff (d : Env) (identity : string)
    (action : LifecycleAction) (w : World) :
  verifyAgentRequestingState d identity action w = None ↔
  identityToStateFile d identity = "" ∨
  (fs_read_error d (trace w) (identityToStateFile d identity) = None ∧
   showsRequesting d w identity action = true).
Proof.
  unfold verifyAgentRequestingState, readFile, showsRequesting.
  destruct (String.eqb_spec (identityToStateFile d identity) "") as [He | Hne].
  { split; [intros _; by left | reflexivity]. }
  destruct (fs_read_error d (trace w) (identityToStateFile d identity)) as [err|].
  { split; [discriminate | intros [? | [? _]]; congruence]. }
  destruct (files w !! identityToStateFile d identity) as [[state|]|].
  - destruct (state !! requestingKey action) as [[[|]| | | |]|];
      (split; [try discriminate; intros _; right; by split
              | intros [? | [_ ?]]; congruence]).
  - split; [discriminate | intros [? | [_ ?]]; congruence].
  - split; [discriminate | intros [? | [_ ?]]; congruence].
Qed.

(** A restart flag does not license a cycle. *)
Example verifyAgentRequestingState_other_action :
  let d := Examples.soonEnv Examples.deleteWorks in
  let w := mkWorld [] (Examples.staged "requesting_restart" (JBool true)) [] in
  verifyAgentRequestingState d "gastown-witness" ActionRestart w = None ∧
  verifyAgentRequestingState d "gastown-witness" ActionCycle w =
    Some (ErrStateMissingField "requesting_cycle") ∧
  verifyAgentRequestingState d "gastown-witness" ActionRestart
    (mkWorld [] (Examples.staged "requesting_restart" (JString "true")) []) =
    Some (ErrStateNotTrue "requesting_restart" (JString "true")).
Proof. vm_compute. repeat split; reflexivity. Qed.



Example clearAgentRequestingState_keeps_other_keys :
  files (clearAgentRequestingState (Examples.soonEnv Examples.deleteWorks)
           "gastown-witness" ActionRestart
           (mkWorld []
              {[ "/town/gastown/witness/state.json" :=
                   FileJSON (<["requesting_restart" := JBool true]>
                             (<["requesting_time" := JString "2025-12-30T08:00:00Z"]>
                             {[ "role" := JString "witness" ]})) ]} [])).2 =
    {[ "/town/gastown/witness/state.json" := FileJSON {[ "role" := JString "witness" ]} ]}.
Proof. vm_compute. reflexivity. Qed.

(** ** Executing an action *)

Section ExecuteFacts.

Variable d : Env.

Lemma syncWorkspace_files (workDir : string) (w : World) :
  files (syncWorkspace workDir w) = files w.
Proof. reflexivity. Qed.

Lemma setSessionEnvironment_files (sessionName identity : string)
    (config : option RoleConfig) (parsed : ParsedIdentity) (w : World) :
  files (setSessionEnvironment d sessionName identity config parsed w) = files w.
Proof.
  unfold setSessionEnvironment. destruct config as [c|]; [|reflexivity].
  set (w2 := emit _ (emit _ w)). change (files w) with (files w2).
  generalize w2. induction (EnvVars c) as [|kv vars IH]; intros w3; simpl;
    [reflexivity|]. by rewrite IH.
Qed.

Lemma applySessionTheme_files (sessionName : string) (parsed : ParsedIdentity)
    (w : World) :
  files (applySessionTheme sessionName parsed w) = files w.
Proof.
  unfold applySessionTheme.
  repeat match goal with |- context [if ?b then _ else _] => destruct b end;
    reflexivity.
Qed.

(** Starting a session writes no state file. *)
Lemma restartSession_files (sessionName identity : string) (w : World) :
  files (restartSession d sessionName identity w).2 = files w.
Proof.
  unfold restartSession.
  destruct (getRoleConfigForIdentity d (trace w) identity) as [[config parsed]|];
    [|reflexivity].
  destruct (String.eqb (getWorkDir d config parsed) ""); [reflexivity|].
  cbn zeta.
  set (w1 := if getNeedsPreSync config parsed then _ else w).
  assert (H1 : files w1 = files w).
  { unfold w1. destruct (getNeedsPreSync config parsed); reflexivity. }
  destruct (tmux_EnsureSessionFresh d (trace w1) sessionName _); simpl;
    [exact H1|].
  match goal with |- context [tmux_SendKeys d ?t ?n ?c] =>
    destruct (tmux_SendKeys d t n c) end; simpl;
    rewrite applySessionTheme_files, setSessionEnvironment_files; exact H1.
Qed.

Lemma parseLifecycleRequest_none (tr tr' : list Event) (msg : BeadsMessage) :
  parseLifecycleRequest d tr msg = None → parseLifecycleRequest d tr' msg = None.
Proof.
  unfold parseLifecycleRequest.
  repeat match goal with
    | |- context [if ?b then _ else _] => destruct b
    | |- context [match ?o with Some _ => _ | None => _ end] => destruct o
    end; congruence.
Qed.


End ExecuteFacts.

(** X17. A shutdown only ever kills: it leaves the inbox and all state
    files as they are (the staged flag is not cleared), and it makes either
    no call at all or the one kill of the requester's session, the latter
    only after the precondition check passed and the session was probed
    alive. A verified shutdown of a session that is not running succeeds
    without doing anything. *)
Theorem executeLifecycleAction_shutdown (d : Env) (request : LifecycleRequest)
    (w : World) :
  reqAction request = ActionShutdown →
  let name := identityToSession d (trace w) (reqFrom request) in
  let verified := verifyAgentRequestingState d (reqFrom request) ActionShutdown w in
  let outcome := executeLifecycleAction d request w in
  inbox outcome.2 = inbox w ∧
  files outcome.2 = files w ∧
  (trace outcome.2 = trace w ∨
   trace outcome.2 = (trace w ++ [EvKillSession name])%list ∧
   verified = None ∧ tmux_HasSession d (trace w) name = Ok true) ∧
  (name ≠ "" → verified = None → tmux_HasSession d (trace w) name = Ok false →
   outcome = (None, w)).
Proof.
  intros Haction name verified outcome. subst outcome.
  unfold executeLifecycleAction. rewrite Haction. fold name. fold verified.
  destruct (String.eqb_spec name "") as [He | Hne].
  { repeat split; try tauto. }
  destruct verified as [v|] eqn:Hv.
  { repeat split; try tauto; discriminate. }
  destruct (tmux_HasSession d (trace w) name) as [[|]|err] eqn:Hprobe.
  - destruct (tmux_KillSession d (trace w) name); simpl;
      repeat split; try discriminate; right; repeat split; reflexivity.
  - simpl. repeat split; tauto.
  - simpl. repeat split; try tauto; discriminate.
Qed.

(** The witness asks to be shut down while its session is gone. *)
Lemma executeLifecycleAction_shutdown_witness :
  let d := Examples.env "/town" Examples.t0 (fun _ => Ok false) Examples.deleteWorks
             (fun _ => None) in
  let w := mkWorld [] (Examples.staged "requesting_shutdown" (JBool true)) [] in
  let request := mkLifecycleRequest "gastown-witness" ActionShutdown Examples.t0 in
  inbox (executeLifecycleAction d request w).2 = inbox w ∧
  files (executeLifecycleAction d request w).2 = files w.
Proof.
  intros d w request.
  destruct (executeLifecycleAction_shutdown d request w eq_refl) as (Hi & Hf & _).
  by split.
Defined.

(** X18. A failed action never changes a state file, so the staged flag
    survives every failure; and a failure to identify the requester, to
    verify its state or to probe its session happens before any call is
    made. A sender that [parseIdentity] does not understand is always such
    an unknown identity. *)
Theorem executeLifecycleAction_failure (d : Env) (request : LifecycleRequest)
    (w : World) :
  let outcome := executeLifecycleAction d request w in
  (∀ e : LifecycleError, outcome.1 = Some e → files outcome.2 = files w) ∧
  (∀ e : LifecycleError, outcome.1 = Some e →
     (∀ err, e ≠ ErrKillingSession err) → (∀ r, e ≠ ErrRestartingSession r) →
     outcome.2 = w) ∧
  (parseIdentity (reqFrom request) = None →
     outcome = (Some (ErrUnknownIdentity (reqFrom request)), w)).
Proof.
  intros outcome. subst outcome. unfold executeLifecycleAction.
  assert (Hunknown : parseIdentity (reqFrom request) = None →
                     identityToSession d (trace w) (reqFrom request) = "").
  { intros Hp. unfold identityToSession, getRoleConfigForIdentity. by rewrite Hp. }
  destruct (String.eqb_spec (identityToSession d (trace w) (reqFrom request)) "")
    as [He | Hne].
  { repeat split; reflexivity. }
  split; [|split; [|intros Hp; apply Hunknown in Hp; congruence]].
  - intros e.
    destruct (verifyAgentRequestingState d _ _ w); [reflexivity|].
    destruct (tmux_HasSession d (trace w) _) as [running|]; [|reflexivity].
    destruct (reqAction request); destruct running;
      try destruct (tmux_KillSession d (trace w) _); simpl;
      first [ by intros
            | match goal with |- context [restartSession d ?n ?i ?w1] =>
                pose proof (restartSession_files d n i w1) as Hr;
                destruct (restartSession d n i w1) as [[r|] w2]; simpl in *;
                [intros _; exact Hr | intros Hres; discriminate Hres]
              end ].
  - intros e.
    destruct (verifyAgentRequestingState d _ _ w); [reflexivity|].
    destruct (tmux_HasSession d (trace w) _) as [running|]; [|reflexivity].
    destruct (reqAction request); destruct running;
      try destruct (tmux_KillSession d (trace w) _); simpl;
      first [ by intros
            | intros [= <-] Hkill _; exfalso; eapply Hkill; reflexivity
            | match goal with |- context [restartSession d ?n ?i ?w1] =>
                destruct (restartSession d n i w1) as [[r|] w2]; simpl;
                [intros [= <-] _ Hrestart; exfalso; eapply Hrestart; reflexivity
                | intros Hres; discriminate Hres]
              end ].
Qed.

(** A sender written as a mail address is no known identity: the request
    fails and nothing is done. *)
Lemma executeLifecycleAction_failure_witness :
  let d := Examples.soonEnv Examples.deleteWorks in
  let w := mkWorld [] (Examples.staged "requesting_restart" (JBool true)) [] in
  executeLifecycleAction d (mkLifecycleRequest "gastown/witness" ActionRestart 0) w =
  (Some (ErrUnknownIdentity "gastown/witness"), w).
Proof.
  intros d w.
  apply (executeLifecycleAction_failure d
           (mkLifecycleRequest "gastown/witness" ActionRestart 0) w).
  reflexivity.
Defined.

(** ** What a pass leaves alone *)





(** X21. The staleness gate only stops what it can date: an unread
    lifecycle request whose timestamp does not parse is closed and executed
    however old it is, and so is one whose age is exactly the six hours
    or less; only with a parsed age above six hours is the message closed
    without the action being run. *)
Theorem staleness_gate_edges (d : Env) (w : World) (msg : BeadsMessage)
    (request : LifecycleRequest) :
  Read msg = false →
  parseLifecycleRequest d (trace w) msg = Some request →
  let closed := (closeMessage d (ID msg) w).2 in
  let executed := (executeLifecycleAction d request closed).2 in
  (time_Parse_RFC3339 d (Timestamp msg) = None →
     processMessage d w msg = executed) ∧
  (∀ sent : Time, time_Parse_RFC3339 d (Timestamp msg) = Some sent →
     (Since (clock d (trace w)) sent <= MaxLifecycleMessageAge →
        processMessage d w msg = executed) ∧
     (MaxLifecycleMessageAge < Since (clock d (trace w)) sent →
        processMessage d w msg = closed)).
Proof.
  intros Hread Hparse closed executed. subst closed executed.
  unfold processMessage, isStale. rewrite Hread, Hparse.
  split.
  - intros ->. reflexivity.
  - intros sent ->.
    destruct (Z.ltb_spec MaxLifecycleMessageAge (Since (clock d (trace w)) sent));
      split; intros; first [reflexivity | lia].
Qed.

(** A request with a timestamp the daemon cannot read, seven hours after
    the requests it can read were sent: it is closed and its action
    attempted. *)
Lemma staleness_gate_edges_witness :
  let d := Examples.lateEnv Examples.deleteWorks in
  let msg := mkBeadsMessage "hq-1" "gastown-witness" "deacon/" "LIFECYCLE: request"
               "restart" "last week" false "normal" "task" in
  let w := mkWorld [msg] (Examples.staged "requesting_restart" (JBool true)) [] in
  trace (processMessage d w msg) =
  trace (executeLifecycleAction d
           (mkLifecycleRequest "gastown-witness" ActionRestart (Examples.t0 + 7 * Hour))
           (closeMessage d "hq-1" w).2).2.
Proof.
  intros d msg w.
  by rewrite (proj1 (staleness_gate_edges d w msg
                       (mkLifecycleRequest "gastown-witness" ActionRestart
                          (Examples.t0 + 7 * Hour))
                       eq_refl eq_refl) eq_refl).
Defined.

(** ** Cutting and gluing text *)

Lemma length_append_string (a b : string) :
  String.length (a +:+ b) = (String.length a + String.length b)%nat.
Proof.
  induction a as [|x a IH]; [reflexivity|].
  change (S (String.length (a +:+ b)) = S (String.length a + String.length b)).
  by rewrite IH.
Qed.

(** Every text is its first [k] bytes followed by the rest. *)
Lemma substring_from (s : string) (k : nat) : String.substring 0 k s +:+ from k s = s.
Proof.
  revert k. induction s as [|x s IH]; intros [|k]; try reflexivity.
  - change (from 0 (String x s) = String x s). apply from_zero.
  - rewrite from_succ.
    change (String x (String.substring 0 k s +:+ from k s) = String x s).
    by rewrite IH.
Qed.

Lemma substring_app_skip (a b : string) (n m : nat) :
  String.substring (String.length a + n) m (a +:+ b) = String.substring n m b.
Proof. induction a as [|x a IH]; [reflexivity | exact IH]. Qed.

Lemma substring_prefix_app (a b : string) :
  String.substring 0 (String.length a) (a +:+ b) = a.
Proof.
  induction a as [|x a IH]; [by destruct b|].
  change (String x (String.substring 0 (String.length a) (a +:+ b)) = String x a).
  by rewrite IH.
Qed.

Lemma from_app (a b : string) (n : nat) :
  from (String.length a + n) (a +:+ b) = from n b.
Proof.
  unfold from. rewrite length_append_string, substring_app_skip.
  f_equal. lia.
Qed.

(** A found occurrence splits the text around it. *)
Lemma substring_cut (s sep : string) (i k : nat) :
  String.substring i k s = sep →
  s = String.substring 0 i s +:+ sep +:+ from (i + k) s.
Proof.
  revert i. induction s as [|x s IH]; intros i H.
  - assert (sep = "") as -> by (destruct i, k; simpl in H; congruence).
    by destruct i.
  - destruct i as [|i].
    + subst sep. symmetry. apply (substring_from (String x s) k).
    + change (String.substring (S i) k (String x s)) with (String.substring i k s) in H.
      change (String x s =
              String x (String.substring 0 i s +:+ sep +:+ from (i + k) s)).
      f_equal. by apply IH.
Qed.

Lemma Cut_sound (s sep a b : string) : Cut s sep = Some (a, b) → s = a +:+ sep +:+ b.
Proof.
  unfold Cut. destruct (String.index 0 sep s) as [i|] eqn:E; [|discriminate].
  intros [= <- <-]. apply substring_cut. by apply (String.index_correct1 0).
Qed.

Lemma Contains_app (a sep b : string) : sep ≠ "" → Contains (a +:+ sep +:+ b) sep = true.
Proof.
  intros Hsep. unfold Contains, Cut.
  destruct (String.index 0 sep (a +:+ sep +:+ b)) as [i|] eqn:E; [reflexivity|].
  exfalso.
  apply (String.index_correct3 0 (String.length a) _ _ E Hsep); [lia|].
  rewrite <- (Nat.add_0_r (String.length a)), substring_app_skip.
  apply substring_prefix_app.
Qed.

Lemma HasSuffix_split (s p : string) : HasSuffix s p = true → s = TrimSuffix s p +:+ p.
Proof.
  intros H. unfold TrimSuffix. rewrite H.
  unfold HasSuffix in H. apply andb_true_iff in H as [_ H].
  apply String.eqb_eq in H.
  rewrite <- (substring_from s (String.length s - String.length p)) at 1.
  by rewrite H.
Qed.

Lemma HasSuffix_app (a p : string) : HasSuffix (a +:+ p) p = true.
Proof.
  unfold HasSuffix. rewrite length_append_string.
  apply andb_true_iff. split; [apply Nat.leb_le; lia|].
  replace (String.length a + String.length p - String.length p)%nat
    with (String.length a + 0)%nat by lia.
  rewrite from_app, from_zero. apply String.eqb_refl.
Qed.

Lemma TrimSuffix_app (a p : string) : TrimSuffix (a +:+ p) p = a.
Proof.
  unfold TrimSuffix. rewrite HasSuffix_app, length_append_string.
  replace (String.length a + String.length p - String.length p)%nat
    with (String.length a) by lia.
  apply substring_prefix_app.
Qed.

(** ** Identities *)

Lemma parseIdentity_cases (identity : string) (p : ParsedIdentity) :
  parseIdentity identity = Some p →
  (p = mkParsedIdentity "mayor" "" "" ∧ identity = "mayor") ∨
  (p = mkParsedIdentity "deacon" "" "" ∧ identity = "deacon") ∨
  (p = mkParsedIdentity "witness" (pRigName p) "" ∧
     identity = pRigName p +:+ "-witness") ∨
  (p = mkParsedIdentity "refinery" (pRigName p) "" ∧
     identity = pRigName p +:+ "-refinery") ∨
  (p = mkParsedIdentity "crew" (pRigName p) (pAgentName p) ∧
     identity = pRigName p +:+ "-crew-" +:+ pAgentName p) ∨
  (p = mkParsedIdentity "polecat" (pRigName p) (pAgentName p) ∧
     (identity = pRigName p +:+ "-polecat-" +:+ pAgentName p ∨
      identity = pRigName p +:+ "/polecats/" +:+ pAgentName p)).
Proof.
  unfold parseIdentity.
  destruct (String.eqb_spec identity "mayor") as [->|_];
    [intros [= <-]; by left|].
  destruct (String.eqb_spec identity "deacon") as [->|_];
    [intros [= <-]; right; by left|].
  destruct (HasSuffix identity "-witness") eqn:Hw.
  { intros [= <-]. do 2 right. left. split; [reflexivity|].
    by apply HasSuffix_split. }
  destruct (HasSuffix identity "-refinery") eqn:Hr.
  { intros [= <-]. do 3 right. left. split; [reflexivity|].
    by apply HasSuffix_split. }
  destruct (Cut identity "-crew-") as [[rig name]|] eqn:Hc.
  { intros [= <-]. do 4 right. left. split; [reflexivity|].
    by apply Cut_sound. }
  destruct (Cut identity "-polecat-") as [[rig name]|] eqn:Hp.
  { intros [= <-]. do 5 right. split; [reflexivity|]. left.
    by apply Cut_sound. }
  destruct (Cut identity "/polecats/") as [[rig name]|] eqn:Hs; [|discriminate].
  destruct (Contains name "/polecats/"); [discriminate|].
  intros [= <-]. do 5 right. split; [reflexivity|]. right.
  by apply Cut_sound.
Qed.

(** X22. Parsing an identity loses nothing: the identity is the parsed rig
    and agent names around the marker of the role. The role is one of six,
    a town-level or singleton role has no agent name, and a polecat comes
    in the hyphen or the slash form. *)
Theorem parseIdentity_sound (identity : string) (p : ParsedIdentity) :
  parseIdentity identity = Some p →
  match pRoleType p with
  | "mayor" => identity = "mayor" ∧ pRigName p = "" ∧ pAgentName p = ""
  | "deacon" => identity = "deacon" ∧ pRigName p = "" ∧ pAgentName p = ""
  | "witness" => identity = pRigName p +:+ "-witness" ∧ pAgentName p = ""
  | "refinery" => identity = pRigName p +:+ "-refinery" ∧ pAgentName p = ""
  | "crew" => identity = pRigName p +:+ "-crew-" +:+ pAgentName p
  | "polecat" =>
      identity = pRigName p +:+ "-polecat-" +:+ pAgentName p ∨
      identity = pRigName p +:+ "/polecats/" +:+ pAgentName p
  | _ => False
  end.
Proof.
  intros H.
  destruct (parseIdentity_cases identity p H)
    as [[-> ->] | [[-> ->] | [[E Hid] | [[E Hid] | [[E Hid] | [E Hid]]]]]];
    try (rewrite E; simpl; tauto); by simpl.
Qed.

Lemma parseIdentity_sound_witness :
  let p := mkParsedIdentity "crew" "gastown" "max" in
  parseIdentity "gastown-crew-max" = Some p ∧
  "gastown-crew-max" = pRigName p +:+ "-crew-" +:+ pAgentName p.
Proof.
  intros p. split; [reflexivity|].
  exact (parseIdentity_sound "gastown-crew-max" p eq_refl).
Defined.

Lemma append_longer (a p q : string) :
  (String.length q < String.length p)%nat → String.eqb (a +:+ p) q = false.
Proof.
  intros Hlen. apply String.eqb_neq. intros E.
  apply (f_equal String.length) in E. rewrite length_append_string in E. lia.
Qed.

(** X23. The identity of a rig's witness or refinery decodes to that rig,
    whatever the rig is called: hyphens and role words in the rig name do
    not matter, since the suffix is tested before any other marker. *)
Theorem parseIdentity_singletons (rig : string) :
  parseIdentity (rig +:+ "-witness") = Some (mkParsedIdentity "witness" rig "") ∧
  parseIdentity (rig +:+ "-refinery") = Some (mkParsedIdentity "refinery" rig "").
Proof.
  unfold parseIdentity. split.
  - rewrite !append_longer by (simpl; lia).
    by rewrite HasSuffix_app, TrimSuffix_app.
  - rewrite !append_longer by (simpl; lia).
    assert (HasSuffix (rig +:+ "-refinery") "-witness" = false) as ->.
    { unfold HasSuffix. rewrite length_append_string.
      replace (String.length rig + String.length "-refinery" - String.length "-witness")%nat
        with (String.length rig + 1)%nat by (simpl; lia).
      rewrite from_app. apply andb_false_r. }
    by rewrite HasSuffix_app, TrimSuffix_app.
Qed.

(** X24. The actor form is stable: converting an identity to the slash
    form and converting the result again changes nothing more. *)
Theorem identityToBDActor_idempotent (identity : string) :
  identityToBDActor (identityToBDActor identity) = identityToBDActor identity.
Proof.
  set (slashed := fun s : string =>
         Contains s "/polecats/" || Contains s "/crew/"
         || Contains s "/witness" || Contains s "/refinery").
  assert (Hfix : ∀ s, slashed s = true → identityToBDActor s = s).
  { intros s Hs. unfold identityToBDActor. fold (slashed s). by rewrite Hs. }
  assert (Hcases : identityToBDActor identity = identity
                   ∨ slashed (identityToBDActor identity) = true
                   ∨ identityToBDActor identity = "mayor"
                   ∨ identityToBDActor identity = "deacon").
  { unfold identityToBDActor at 1 2 3 4. fold (slashed identity).
    destruct (slashed identity); [by left|].
    destruct (parseIdentity identity) as [p|] eqn:Hp; [|by left].
    destruct (parseIdentity_cases identity p Hp)
      as [[-> ->] | [[-> ->] | [[E _] | [[E _] | [[E _] | [E _]]]]]];
      [by left | by left | right; left; rewrite E; simpl; unfold slashed ..].
    - rewrite <- (append_empty_r (pRigName p +:+ "/witness")), append_assoc_string.
      rewrite (Contains_app _ "/witness") by discriminate.
      by rewrite !orb_true_r.
    - rewrite <- (append_empty_r (pRigName p +:+ "/refinery")), append_assoc_string.
      rewrite (Contains_app _ "/refinery") by discriminate.
      by rewrite !orb_true_r.
    - rewrite (Contains_app _ "/crew/") by discriminate.
      by rewrite !orb_true_r.
    - by rewrite (Contains_app _ "/polecats/") by discriminate. }
  destruct Hcases as [H | [H | [H | H]]].
  - by rewrite !H.
  - by apply Hfix.
  - by rewrite H.
  - by rewrite H.
Qed.

(** X25. With no session pattern configured for the role, the session of
    a witness, refinery or crew identity is the identity behind the
    session prefix, while a polecat identity loses its marker: its
    session is the one the session package names for the rig and the
    polecat. *)
Theorem identityToSession_default (d : Env) (tr : list Event)
    (identity : string) (p : ParsedIdentity) :
  parseIdentity identity = Some p →
  (∀ c, beads_GetRoleConfig d tr (pRoleType p) = Some c → SessionPattern c = "") →
  (In (pRoleType p) ["witness"; "refinery"; "crew"] →
     identityToSession d tr identity = session.Prefix +:+ identity) ∧
  (pRoleType p = "polecat" →
     identityToSession d tr identity =
     session.PolecatSessionName (pRigName p) (pAgentName p)).
Proof.
  intros Hp Hcfg.
  assert (Hfallback : ∀ fallback : string,
            match beads_GetRoleConfig d tr (pRoleType p) with
            | Some c =>
                if negb (String.eqb (SessionPattern c) "")
                then expand d (SessionPattern c) p else fallback
            | None => fallback
            end = fallback).
  { intros fallback.
    destruct (beads_GetRoleConfig d tr (pRoleType p)) as [c|]; [|reflexivity].
    by rewrite (Hcfg c eq_refl). }
  unfold identityToSession, getRoleConfigForIdentity. rewrite Hp, Hfallback.
  destruct (parseIdentity_cases identity p Hp)
    as [[-> ->] | [[-> ->] | [[E Hid] | [[E Hid] | [[E Hid] | [E Hid]]]]]];
    try rewrite E; simpl; (split; [intros Hin | intros Hrole]);
    try discriminate Hrole;
    try (exfalso; clear -Hin; simpl in Hin; intuition discriminate);
    try reflexivity.
  - by rewrite Hid.
  - by rewrite Hid.
  - by rewrite Hid.
Qed.

Lemma identityToSession_default_witness :
  let d := Examples.freshEnv in
  identityToSession d [] "gastown-crew-max" = "gt-gastown-crew-max".
Proof.
  intros d.
  apply (identityToSession_default d [] "gastown-crew-max"
           (mkParsedIdentity "crew" "gastown" "max") eq_refl).
  - intros c Hc. vm_compute in Hc. discriminate Hc.
  - simpl. tauto.
Defined.


(** ** The rig of a polecat's agent bead *)

Lemma LastIndexByte_none (s : string) (c : ascii) :
  hasByte s c = false → LastIndexByte s c = None.
Proof.
  induction s as [|a s IH]; simpl; [reflexivity|].
  intros H. apply orb_false_iff in H as [Ha Hs].
  by rewrite (IH Hs), Ha.
Qed.

Lemma LastIndexByte_app (a b : string) (c : ascii) :
  hasByte b c = false →
  LastIndexByte (a +:+ String c b) c = Some (String.length a).
Proof.
  intros Hb. induction a as [|x a IH].
  - change (LastIndexByte (String c b) c = Some 0%nat). simpl.
    by rewrite (LastIndexByte_none b c Hb), Ascii.eqb_refl.
  - change (LastIndexByte (String x (a +:+ String c b)) c = Some (S (String.length a))).
    simpl. by rewrite IH.
Qed.

(** X26. The rig is read back from the bead id of a polecat whose name
    has no hyphen, whatever the rig is called. *)
Theorem extractRigFromAgentID_polecat (rig name : string) :
  hasByte name "-" = false →
  extractRigFromAgentID ("gt-polecat-" +:+ rig +:+ "-" +:+ name) = rig.
Proof.
  intros Hname. unfold extractRigFromAgentID.
  assert (HasPrefix ("gt-polecat-" +:+ rig +:+ "-" +:+ name) "gt-polecat-" = true) as Hpre
    by (apply String.prefix_correct, substring_prefix_app).
  unfold TrimPrefix. rewrite Hpre. simpl negb. cbv iota.
  rewrite (from_app "gt-polecat-" _ 0), from_zero.
  change ("-" +:+ name) with (String "-" name).
  rewrite (LastIndexByte_app rig name "-" Hname).
  apply substring_prefix_app.
Qed.

Lemma extractRigFromAgentID_polecat_witness :
  extractRigFromAgentID "gt-polecat-gas-town-max" = "gas-town".
Proof. exact (extractRigFromAgentID_polecat "gas-town" "max" eq_refl). Defined.

Lemma LastIndexByte_some (s : string) (c : ascii) :
  LastIndexByte s c = None → hasByte s c = false.
Proof.
  induction s as [|a s IH]; simpl; [reflexivity|].
  destruct (LastIndexByte s c); [discriminate|].
  destruct (Ascii.eqb a c); [discriminate|].
  intros _. by apply IH.
Qed.

(** The last occurrence of a byte splits the text, and the byte does not
    occur behind it. *)
Lemma LastIndexByte_split (s : string) (c : ascii) (i : nat) :
  LastIndexByte s c = Some i →
  s = String.substring 0 i s +:+ String c (from (S i) s)
  ∧ hasByte (from (S i) s) c = false.
Proof.
  revert i. induction s as [|a s IH]; intros i; simpl; [discriminate|].
  destruct (LastIndexByte s c) as [j|] eqn:E.
  - intros [= <-]. destruct (IH j eq_refl) as [Hs Hno].
    rewrite from_succ. split; [|exact Hno].
    change (String a s = String a (String.substring 0 j s +:+ String c (from (S j) s))).
    by rewrite <- Hs.
  - destruct (Ascii.eqb_spec a c) as [->|]; [|discriminate].
    intros [= <-]. rewrite from_succ, from_zero.
    split; [reflexivity | by apply LastIndexByte_some].
Qed.

Lemma extractRigFromAgentID_inv (agentID rig : string) :
  extractRigFromAgentID agentID = rig → rig ≠ "" →
  ∃ name : string,
    agentID = "gt-polecat-" +:+ rig +:+ "-" +:+ name ∧ hasByte name "-" = false.
Proof.
  unfold extractRigFromAgentID, TrimPrefix.
  destruct (HasPrefix agentID "gt-polecat-") eqn:Hpre; simpl negb; cbv iota.
  2:{ intros E Hrig. exfalso. apply Hrig. by rewrite <- E. }
  pose proof (prefix_split "gt-polecat-" agentID Hpre) as Hid.
  destruct (LastIndexByte (from (String.length "gt-polecat-") agentID) "-")
    as [i|] eqn:Hlast.
  2:{ intros E Hrig. exfalso. apply Hrig. by rewrite <- E. }
  intros <- _. destruct (LastIndexByte_split _ _ _ Hlast) as [Hrest Hno].
  eexists. split; [|exact Hno].
  rewrite Hid at 1. f_equal. exact Hrest.
Qed.

(** A loop that appends to what it was given collects, in order, what
    each turn adds. *)
Lemma fold_left_appends {A B : Type} (step : list B → A → list B) (g : A → list B)
    (l : list A) (acc : list B) :
  (∀ acc x, step acc x = (acc ++ g x)%list) →
  fold_left step l acc = (acc ++ flat_map g l)%list.
Proof.
  intros Hstep. revert acc. induction l as [|x l IH]; intros acc; simpl.
  - by rewrite app_nil_r.
  - by rewrite IH, Hstep, <- app_assoc.
Qed.

(** X27. The orphaned-work sweep writes to the witness of a rig exactly
    for the listed agents that are dead, have work on their hook and
    carry the bead id of a polecat of that rig: [gt-polecat-<rig>-<name>]
    with a rig name and a name free of hyphens. A dead agent of any other
    kind is passed over whatever is on its hook, and a failed listing
    sends nothing. Earlier notices are kept. *)
Theorem checkOrphanedWork_notices (ss : SweepSetup) (sent : list Notice) :
  ∃ added : list Notice,
    checkOrphanedWork ss sent = (sent ++ added)%list ∧
    ∀ n : Notice,
      In n added ↔
      ∃ (agents : list AgentListing) (agent : AgentListing) (rig name : string),
        bd_list_agents ss sent = Some agents ∧ In agent agents ∧
        listedAgentState agent = "dead" ∧ listedHookBead agent ≠ "" ∧
        listedID agent = "gt-polecat-" +:+ rig +:+ "-" +:+ name ∧
        rig ≠ "" ∧ hasByte name "-" = false ∧
        n = notifyWitnessOfOrphanedWork rig (listedID agent) (listedHookBead agent).
Proof.
  set (notice := fun agent : deadAgentInfo =>
         if String.eqb (deadHookBead agent) "" then []
         else if negb (String.eqb (extractRigFromAgentID (deadID agent)) "")
              then [notifyWitnessOfOrphanedWork (extractRigFromAgentID (deadID agent))
                      (deadID agent) (deadHookBead agent)]
              else []).
  set (dead := fun agent : AgentListing =>
         if String.eqb (listedAgentState agent) "dead"
         then [mkDeadAgentInfo (listedID agent) (listedHookBead agent)] else []).
  exists (flat_map notice (getDeadAgents ss sent)). split.
  { unfold checkOrphanedWork. apply fold_left_appends.
    intros acc x. unfold notice.
    destruct (String.eqb (deadHookBead x) ""); [by rewrite app_nil_r|].
    destruct (negb _); [reflexivity | by rewrite app_nil_r]. }
  intros n. rewrite in_flat_map. unfold getDeadAgents.
  destruct (bd_list_agents ss sent) as [agents|].
  2:{ split; [intros (? & [] & _) | intros (? & ? & ? & ? & [=] & _)]. }
  rewrite (fold_left_appends _ dead).
  2:{ intros acc x. unfold dead.
      destruct (String.eqb (listedAgentState x) "dead"); [reflexivity | by rewrite app_nil_r]. }
  simpl. split.
  - intros (da & Hda & Hn). apply in_flat_map in Hda as (agent & Hagent & Hda).
    unfold dead in Hda.
    destruct (String.eqb_spec (listedAgentState agent) "dead") as [Hstate|_]; [|destruct Hda].
    destruct Hda as [<- | []]. unfold notice in Hn. simpl in Hn.
    destruct (String.eqb_spec (listedHookBead agent) "") as [|Hhook]; [destruct Hn|].
    destruct (String.eqb_spec (extractRigFromAgentID (listedID agent)) "") as [|Hrig];
      [destruct Hn|].
    destruct Hn as [<- | []].
    destruct (extractRigFromAgentID_inv _ _ eq_refl Hrig) as (name & Hid & Hname).
    exists agents, agent, (extractRigFromAgentID (listedID agent)), name.
    by repeat split.
  - intros (agents' & agent & rig & name & [= <-] & Hagent & Hstate & Hhook
            & Hid & Hrig & Hname & ->).
    exists (mkDeadAgentInfo (listedID agent) (listedHookBead agent)). split.
    + apply in_flat_map. exists agent. split; [exact Hagent|].
      unfold dead. rewrite Hstate. by left.
    + unfold notice. simpl.
      destruct (String.eqb_spec (listedHookBead agent) "") as [|_]; [done|].
      assert (extractRigFromAgentID (listedID agent) = rig) as ->.
      { rewrite Hid. unfold extractRigFromAgentID, TrimPrefix.
        assert (HasPrefix ("gt-polecat-" +:+ rig +:+ "-" +:+ name) "gt-polecat-" = true)
          as -> by (apply String.prefix_correct, substring_prefix_app).
        simpl negb. cbv iota.
        rewrite (from_app "gt-polecat-" _ 0), from_zero.
        change ("-" +:+ name) with (String "-" name).
        rewrite (LastIndexByte_app rig name "-" Hname).
        apply substring_prefix_app. }
      destruct (String.eqb_spec rig "") as [|_]; [done|]. by left.
Qed.

(** Of the four listed agents only the dead polecat with hooked work is
    reported. *)
Example checkOrphanedWork_run :
  checkOrphanedWork (Examples.sweep Examples.t0) [] =
  [notifyWitnessOfOrphanedWork "gastown" "gt-polecat-gastown-max" "gt-abc12"].
Proof. reflexivity. Qed.

(** A loop whose turns only append keeps what it was given, and what it
    adds has every property the turns' additions have. *)
Lemma fold_left_extends {A B : Type} (P : B → Prop) (step : list B → A → list B)
    (l : list A) :
  (∀ acc x, In x l → ∃ added, step acc x = (acc ++ added)%list ∧ Forall P added) →
  ∀ acc, ∃ added, fold_left step l acc = (acc ++ added)%list ∧ Forall P added.
Proof.
  induction l as [|x l IH]; intros Hstep acc; simpl.
  - exists []. by rewrite app_nil_r.
  - destruct (Hstep acc x (or_introl eq_refl)) as (a1 & -> & H1).
    destruct (IH (fun acc y Hy => Hstep acc y (or_intror Hy)) (acc ++ a1)%list)
      as (a2 & -> & H2).
    exists (a1 ++ a2)%list. split; [by rewrite app_assoc|].
    apply Forall_app. by split.
Qed.

(** X28. The hooked-work sweep only ever reports what it saw: whatever
    the listing and the clock do while the sweep runs, each notice it adds
    goes to the witness of a known rig, about a listed agent whose bead id
    starts with the polecat prefix of that rig, that has work on its hook,
    reports itself working or running, and whose last update, read from a
    timestamp that parses, was more than thirty minutes before the clock
    reading taken for it. Earlier notices are kept. *)
Theorem checkGUPPViolations_sound (d : Env) (ss : SweepSetup) (rigs : list string)
    (sent : list Notice) :
  ∃ added : list Notice,
    checkGUPPViolations d ss rigs sent = (sent ++ added)%list ∧
    Forall (fun n : Notice =>
      ∃ (rig : string) (listed before : list Notice) (agents : list AgentListing)
        (agent : AgentListing) (updatedAt : Time),
        In rig rigs ∧ bd_list_agents ss listed = Some agents ∧ In agent agents ∧
        HasPrefix (listedID agent) ("gt-polecat-" +:+ rig +:+ "-") = true ∧
        listedHookBead agent ≠ "" ∧
        (listedAgentState agent = "working" ∨ listedAgentState agent = "running") ∧
        time_Parse_RFC3339 d (listedUpdatedAt agent) = Some updatedAt ∧
        GUPPViolationTimeout < Since (sweepClock ss before) updatedAt ∧
        noticeTo n = rig +:+ "/witness" ∧
        n = notifyWitnessOfGUPP d rig (listedID agent) (listedHookBead agent)
              (Since (sweepClock ss before) updatedAt)) added.
Proof.
  unfold checkGUPPViolations. apply fold_left_extends.
  intros acc rig Hrig. unfold checkRigGUPPViolations.
  destruct (bd_list_agents ss acc) as [agents|] eqn:Hlist.
  2:{ exists []. by rewrite app_nil_r. }
  apply fold_left_extends. clear sent.
  intros sent agent Hagent. unfold checkAgentGUPPViolation.
  destruct (HasPrefix (listedID agent) ("gt-polecat-" +:+ rig +:+ "-")) eqn:Hpre;
    simpl negb; cbv iota; [|exists []; by rewrite app_nil_r].
  destruct (String.eqb_spec (listedHookBead agent) "") as [|Hhook];
    [exists []; by rewrite app_nil_r|].
  destruct (String.eqb (listedAgentState agent) "working"
            || String.eqb (listedAgentState agent) "running") eqn:Hstate;
    [|exists []; by rewrite app_nil_r].
  destruct (time_Parse_RFC3339 d (listedUpdatedAt agent)) as [updatedAt|] eqn:Htime;
    [|exists []; by rewrite app_nil_r].
  cbv zeta.
  destruct (Z.ltb_spec GUPPViolationTimeout (Since (sweepClock ss sent) updatedAt))
    as [Hage|_]; [|exists []; by rewrite app_nil_r].
  eexists. split; [reflexivity|].
  constructor; [|constructor].
  exists rig, acc, sent, agents, agent, updatedAt.
  assert (listedAgentState agent = "working" ∨ listedAgentState agent = "running")
    by (apply orb_true_iff in Hstate as [H|H]; apply String.eqb_eq in H; tauto).
  tauto.
Qed.

(** X29. While the listing and the clock stand still the hooked-work
    sweep misses nothing: it reports each listed agent to the witness of
    each known rig whose polecat prefix the bead id starts with, exactly
    when the agent has work on its hook, reports itself working or
    running, and was last updated, by a timestamp that parses, more than
    thirty minutes ago. An update exactly thirty minutes old is no
    violation yet. *)
Theorem checkGUPPViolations_steady (d : Env) (ss : SweepSetup)
    (agents : list AgentListing) (now : Time) (rigs : list string)
    (sent : list Notice) :
  (∀ seen, bd_list_agents ss seen = Some agents) →
  (∀ seen, sweepClock ss seen = now) →
  ∃ added : list Notice,
    checkGUPPViolations d ss rigs sent = (sent ++ added)%list ∧
    ∀ n : Notice,
      In n added ↔
      ∃ (rig : string) (agent : AgentListing) (updatedAt : Time),
        In rig rigs ∧ In agent agents ∧
        HasPrefix (listedID agent) ("gt-polecat-" +:+ rig +:+ "-") = true ∧
        listedHookBead agent ≠ "" ∧
        (listedAgentState agent = "working" ∨ listedAgentState agent = "running") ∧
        time_Parse_RFC3339 d (listedUpdatedAt agent) = Some updatedAt ∧
        GUPPViolationTimeout < Since now updatedAt ∧
        n = notifyWitnessOfGUPP d rig (listedID agent) (listedHookBead agent)
              (Since now updatedAt).
Proof.
  intros Hlist Hclock.
  set (report := fun (rig : string) (agent : AgentListing) =>
         checkAgentGUPPViolation d ss rig [] agent).
  assert (Hturn : ∀ rig acc agent,
            checkAgentGUPPViolation d ss rig acc agent = (acc ++ report rig agent)%list).
  { intros rig acc agent. unfold report, checkAgentGUPPViolation.
    rewrite !Hclock.
    repeat match goal with
      | |- context [if ?b then _ else _] => destruct b
      | |- context [match ?x with Some _ => _ | None => _ end] => destruct x
      end; by rewrite ?app_nil_r. }
  exists (flat_map (fun rig => flat_map (report rig) agents) rigs). split.
  { unfold checkGUPPViolations. apply fold_left_appends.
    intros acc rig. unfold checkRigGUPPViolations. rewrite Hlist.
    apply fold_left_appends. intros acc' agent. apply Hturn. }
  intros n. rewrite in_flat_map. split.
  - intros (rig & Hrig & Hn). apply in_flat_map in Hn as (agent & Hagent & Hn).
    unfold report, checkAgentGUPPViolation in Hn. rewrite Hclock in Hn.
    destruct (HasPrefix (listedID agent) ("gt-polecat-" +:+ rig +:+ "-")) eqn:Hpre;
      simpl negb in Hn; cbv iota in Hn; [|destruct Hn].
    destruct (String.eqb_spec (listedHookBead agent) "") as [|Hhook]; [destruct Hn|].
    destruct (String.eqb (listedAgentState agent) "working"
              || String.eqb (listedAgentState agent) "running") eqn:Hstate;
      [|destruct Hn].
    destruct (time_Parse_RFC3339 d (listedUpdatedAt agent)) as [updatedAt|] eqn:Htime;
      [|destruct Hn].
    cbv zeta in Hn.
    destruct (Z.ltb_spec GUPPViolationTimeout (Since now updatedAt)) as [Hage|_];
      [|destruct Hn].
    destruct Hn as [<- | []].
    assert (listedAgentState agent = "working" ∨ listedAgentState agent = "running")
      by (apply orb_true_iff in Hstate as [H|H]; apply String.eqb_eq in H; tauto).
    exists rig, agent, updatedAt. tauto.
  - intros (rig & agent & updatedAt & Hrig & Hagent & Hpre & Hhook & Hstate
            & Htime & Hage & ->).
    exists rig. split; [exact Hrig|]. apply in_flat_map.
    exists agent. split; [exact Hagent|].
    unfold report, checkAgentGUPPViolation. rewrite Hclock, Hpre, Htime.
    simpl negb. cbv iota zeta.
    destruct (String.eqb_spec (listedHookBead agent) "") as [|_]; [done|].
    assert (String.eqb (listedAgentState agent) "working"
            || String.eqb (listedAgentState agent) "running" = true) as ->
      by (destruct Hstate as [-> | ->]; reflexivity).
    destruct (Z.ltb_spec GUPPViolationTimeout (Since now updatedAt)); [by left | lia].
Qed.

(** Seven hours after its last update the working polecat with hooked
    work is reported to the witness of its rig. *)
Lemma checkGUPPViolations_steady_witness :
  let d := Examples.lateEnv Examples.deleteWorks in
  let ss := Examples.sweep (Examples.t0 + 7 * Hour) in
  In (notifyWitnessOfGUPP d "gastown" "gt-polecat-gastown-toast" "gt-xyz99" (7 * Hour))
     (checkGUPPViolations d ss ["gastown"] []).
Proof.
  intros d ss.
  destruct (checkGUPPViolations_steady d ss Examples.listing (Examples.t0 + 7 * Hour)
              ["gastown"] [] (fun _ => eq_refl) (fun _ => eq_refl))
    as (added & -> & Hadded).
  apply in_or_app. right. apply Hadded.
  exists "gastown",
    (mkAgentListing "gt-polecat-gastown-toast" "2025-12-30T08:00:00Z" "gt-xyz99" "working"),
    Examples.t0.
  repeat split; try reflexivity; simpl; try tauto; try discriminate.
Defined.

(** A bead id that starts with the polecat prefix of two known rigs is
    reported to the witnesses of both. *)
Example checkGUPPViolations_overlapping_rigs :
  let d := Examples.lateEnv Examples.deleteWorks in
  let ss := mkSweepSetup
              (fun _ => Some [mkAgentListing "gt-polecat-gas-town-max"
                                "2025-12-30T08:00:00Z" "gt-abc12" "running"])
              (fun _ => Examples.t0 + 7 * Hour) in
  map noticeTo (checkGUPPViolations d ss ["gas"; "gas-town"] [])
  = ["gas/witness"; "gas-town/witness"].
Proof. reflexivity. Qed.

(** X30. The actor form agrees with the mail address of the session
    package: an identity in the hyphen form that parses is converted to
    the address of the agent with the parsed role, rig and name. *)
Theorem identityToBDActor_is_Address (identity : string) (p : ParsedIdentity) :
  parseIdentity identity = Some p →
  Contains identity "/polecats/" || Contains identity "/crew/"
  || Contains identity "/witness" || Contains identity "/refinery" = false →
  ∃ a : session.AgentIdentity,
    session.Role_string (session.Role_ a) = pRoleType p ∧
    session.Rig a = pRigName p ∧ session.Name a = pAgentName p ∧
    identityToBDActor identity = session.Address a.
Proof.
  intros Hp Hslash. unfold identityToBDActor. rewrite Hslash, Hp.
  destruct (parseIdentity_cases identity p Hp)
    as [[-> _] | [[-> _] | [[E _] | [[E _] | [[E _] | [E _]]]]]].
  - by exists (session.mkAgentIdentity session.RoleMayor "" "" "").
  - by exists (session.mkAgentIdentity session.RoleDeacon "" "" "").
  - exists (session.mkAgentIdentity session.RoleWitness "" (pRigName p) "").
    rewrite E. by simpl.
  - exists (session.mkAgentIdentity session.RoleRefinery "" (pRigName p) "").
    rewrite E. by simpl.
  - exists (session.mkAgentIdentity session.RoleCrew "" (pRigName p) (pAgentName p)).
    rewrite E. by simpl.
  - exists (session.mkAgentIdentity session.RolePolecat "" (pRigName p) (pAgentName p)).
    rewrite E. by simpl.
Qed.

Lemma identityToBDActor_is_Address_witness :
  ∃ a : session.AgentIdentity,
    session.Role_string (session.Role_ a) = "polecat" ∧
    session.Rig a = "gastown" ∧ session.Name a = "Toast" ∧
    identityToBDActor "gastown-polecat-Toast" = session.Address a.
Proof.
  exact (identityToBDActor_is_Address "gastown-polecat-Toast"
           (mkParsedIdentity "polecat" "gastown" "Toast") eq_refl eq_refl).
Defined.
